(** * simplessh: a shallow embedding of [simplessh.go]

    The package is a thin layer over collaborators (the operating system,
    [net], [golang.org/x/crypto/ssh], its [agent] and [github.com/pkg/sftp]).
    The embedding keeps that shape:

    - the two pure address helpers of Go's [net] package that [addPortToHost]
      calls are given as functions on strings;
    - every call that reaches outside the process is a node of a program
      tree ([Prog]); an interpreter ([run]) threads an arbitrary world
      through a handler that answers each call, and records the calls in
      the order in which they are made;
    - a Go result pair [(value, error)] of which exactly one component is
      non-nil is a sum [value + error]; pairs in which both components
      carry information stay pairs. *)

From Stdlib Require Import ZArith List Bool Lia.
From Stdlib.Strings Require Import String Ascii Byte.
Import ListNotations.

Local Open Scope string_scope.
Local Open Scope Z_scope.

(** ** Go strings and byte slices *)

Definition bytes : Type := list byte.

(** [len(s)] *)
Definition len (s : string) : Z := Z.of_nat (String.length s).

(** [s[i]], for an index within bounds *)
Definition byte_at (s : string) (i : Z) : option ascii :=
  if i <? 0 then None else String.get (Z.to_nat i) s.

(** [s[lo:hi]] *)
Definition slice (s : string) (lo hi : Z) : string :=
  String.substring (Z.to_nat lo) (Z.to_nat (hi - lo)) s.

(** [s[lo:]] *)
Definition slice_from (s : string) (lo : Z) : string :=
  slice s lo (len s).

Definition is_byte (o : option ascii) (c : ascii) : bool :=
  match o with
  | Some a => Ascii.eqb a c
  | None => false
  end.

(** [bytealg.IndexByteString]: index of the first [c] in [s], or -1. *)
Fixpoint IndexByteString (s : string) (c : ascii) : Z :=
  match s with
  | EmptyString => -1
  | String a s' =>
      if Ascii.eqb a c then 0
      else let r := IndexByteString s' c in
           if r <? 0 then -1 else r + 1
  end.

(** [bytealg.LastIndexByteString]: index of the last [c] in [s], or -1. *)
Fixpoint LastIndexByteString (s : string) (c : ascii) : Z :=
  match s with
  | EmptyString => -1
  | String a s' =>
      let r := LastIndexByteString s' c in
      if 0 <=? r then r + 1
      else if Ascii.eqb a c then 0 else -1
  end.

(** The byte [c] occurs in [s]. *)
Definition occurs (c : ascii) (s : string) : Prop :=
  In c (list_ascii_of_string s).

(** ** Errors *)

(** A Go [error] value, identified by the text its [Error()] method gives. *)
Record error : Type := errors_New { Error : string }.

(** [fmt.Errorf(prefix + "%v", err)] *)
Definition fmt_Errorf_v (prefix : string) (err : error) : error :=
  errors_New (prefix ++ Error err).

(** ** The address helpers of package [net] (net/ipsock.go) *)

Module net.

Definition missingPort : string := "missing port in address".
Definition tooManyColons : string := "too many colons in address".

(** [&AddrError{Err: why, Addr: addr}] *)
Definition addrErr {A} (addr why : string) : A + error :=
  inr (errors_New (if String.eqb addr "" then why
                   else "address " ++ addr ++ ": " ++ why)).

(** The two closing checks of [SplitHostPort], shared by both branches:
    no '[' from position [j] on, no ']' from position [k] on; then the
    port is what follows the last colon, at [i]. *)
Definition splitTail (hostport host : string) (j k i : Z)
  : (string * string) + error :=
  if 0 <=? IndexByteString (slice_from hostport j) "["
  then addrErr hostport "unexpected '[' in address"
  else if 0 <=? IndexByteString (slice_from hostport k) "]"
  then addrErr hostport "unexpected ']' in address"
  else inl (host, slice_from hostport (i + 1)).

(** [net.SplitHostPort]: splits "host:port", "host%zone:port",
    "[host]:port" or "[host%zone]:port" into host and port. *)
Definition SplitHostPort (hostport : string) : (string * string) + error :=
  (* The port starts after the last colon. *)
  let i := LastIndexByteString hostport ":" in
  if i <? 0 then addrErr hostport missingPort
  else if is_byte (byte_at hostport 0) "["
  then
    (* Expect the first ']' just before the last ':'. *)
    let end_ := IndexByteString hostport "]" in
    if end_ <? 0 then addrErr hostport "missing ']' in address"
    else if end_ + 1 =? len hostport
    then addrErr hostport missingPort
    else if end_ + 1 =? i
    then splitTail hostport (slice hostport 1 end_) 1 (end_ + 1) i
    else if is_byte (byte_at hostport (end_ + 1)) ":"
    then addrErr hostport tooManyColons
    else addrErr hostport missingPort
  else
    let host := slice hostport 0 i in
    if 0 <=? IndexByteString host ":"
    then addrErr hostport tooManyColons
    else splitTail hostport host 0 0 i.

(** [net.JoinHostPort]: "host:port", or "[host]:port" when the host
    contains a colon, as a literal IPv6 address does. *)
Definition JoinHostPort (host port : string) : string :=
  if 0 <=? IndexByteString host ":"
  then "[" ++ host ++ "]:" ++ port
  else host ++ ":" ++ port.

End net.

(** ** [addPortToHost] *)

Definition addPortToHost (host : string) : string :=
  match net.SplitHostPort host with
  | inr _ =>
      (* We got an error so blindly try to add a port number *)
      net.JoinHostPort host "22"
  | inl _ => host
  end.

(** ** Collaborator data *)

(** [time.Duration]: a count of nanoseconds. *)
Definition Duration : Type := Z.

Definition time_Second : Duration := 1000000000.

Definition DefaultTimeout : Duration := 30 * time_Second.

(** [os/user.User] *)
Record user_User : Type := {
  Uid : string;
  Gid : string;
  Username : string;
  Name : string;
  HomeDir : string
}.

(** Objects owned by a collaborator are known to this package only by
    reference; a reference is a number. *)
Definition ref : Type := N.

Definition net_Conn : Type := ref.
Definition ssh_Signer : Type := ref.
Definition ssh_Conn : Type := ref.
Definition ssh_NewChannels : Type := ref.
Definition ssh_Requests : Type := ref.
Definition ssh_Client : Type := ref.
Definition ssh_Session : Type := ref.
Definition sftp_Client : Type := ref.
Definition sftp_File : Type := ref.

(** [agent.NewClient(rw)] and its method value [.Signers] *)
Inductive agent_Client : Type :=
| agent_NewClient (rw : net_Conn).

Inductive agent_SignersFunc : Type :=
| agent_Signers (c : agent_Client).

(** [ssh.AuthMethod], with the three constructors the package uses *)
Inductive ssh_AuthMethod : Type :=
| ssh_Password (secret : string)
| ssh_PublicKeys (signers : list ssh_Signer)
| ssh_PublicKeysCallback (getSigners : agent_SignersFunc).

(** [ssh.HostKeyCallback]; [None] below is Go's nil function value. *)
Inductive ssh_HostKeyCallback : Type :=
| ssh_InsecureIgnoreHostKey
| ssh_FixedHostKey (key : bytes).

(** [ssh.ClientConfig] (the embedded [ssh.Config] and the banner callback
    are never touched by this package and are left out). A field that a
    composite literal does not name holds its zero value. *)
Record ssh_ClientConfig : Type := {
  User : string;
  Auth : list ssh_AuthMethod;
  HostKeyCallback : option ssh_HostKeyCallback;
  ClientVersion : string;
  HostKeyAlgorithms : list string;
  Timeout : Duration
}.

Record Client : Type := { SSHClient : ssh_Client }.

(** The two writers of an [ssh.Session] ([session.Stdout], [session.Stderr]) *)
Inductive Writer : Type := Stdout | Stderr.

(** What [session.Run] does as seen from the caller: the chunks it writes
    to the session's writers, in order of arrival, and the error it gives. *)
Record RunResult : Type := {
  writes : list (Writer * bytes);
  run_err : option error
}.

(** [bytes.Buffer]: the zero value is an empty buffer, [Write] appends. *)
Definition Buffer : Type := bytes.
Definition Buffer_zero : Buffer := [].
Definition Buffer_Write (b : Buffer) (p : bytes) : Buffer := (b ++ p)%list.
Definition Buffer_Bytes (b : Buffer) : bytes := b.

(** ** Calls that leave the process *)

Inductive Ext : Type -> Type :=
| user_Current : Ext (user_User + error)
| ioutil_ReadFile (filename : string) : Ext (bytes + error)
| os_Getenv (key : string) : Ext string
| net_Dial (network address : string) : Ext (net_Conn + error)
| net_DialTimeout (network address : string) (timeout : Duration)
  : Ext (net_Conn + error)
| ssh_NewClientConn (c : net_Conn) (addr : string) (config : ssh_ClientConfig)
  : Ext (ssh_Conn * ssh_NewChannels * ssh_Requests + error)
| ssh_NewClient (c : ssh_Conn) (chans : ssh_NewChannels) (reqs : ssh_Requests)
  : Ext ssh_Client
| ssh_Client_NewSession (c : ssh_Client) : Ext (ssh_Session + error)
| ssh_Session_Run (s : ssh_Session) (cmd : string) : Ext RunResult
| ssh_Session_Close (s : ssh_Session) : Ext (option error)
| sftp_NewClient (c : ssh_Client) : Ext (sftp_Client + error)
| sftp_Client_Open (c : sftp_Client) (path : string) : Ext (sftp_File + error)
| sftp_Client_Close (c : sftp_Client) : Ext (option error)
| sftp_File_Close (f : sftp_File) : Ext (option error)
| ioutil_ReadAll (r : sftp_File) : Ext (bytes * option error).

(** A call and its answer, as they appear in the record of a run. *)
Inductive Event : Type :=
| Ev {X : Type} (e : Ext X) (x : X).

(** The pure functions of the libraries that the package calls and that
    are taken as given. *)
Class Library : Type := {
  ssh_ParsePrivateKey : bytes -> ssh_Signer + error;
  filepath_Join : list string -> string
}.

(** ** Programs *)

Inductive Prog (A : Type) : Type :=
| Ret (a : A)
| Panic (v : error)
| Call {X : Type} (e : Ext X) (k : X -> Prog A).

Arguments Ret {A} a.
Arguments Panic {A} v.
Arguments Call {A X} e k.

Fixpoint bind {A B : Type} (p : Prog A) (f : A -> Prog B) : Prog B :=
  match p with
  | Ret a => f a
  | Panic v => Panic v
  | Call e k => Call e (fun x => bind (k x) f)
  end.

Definition call {X : Type} (e : Ext X) : Prog X := Call e Ret.

(** [defer d] followed by the rest of the function body: [d] runs when the
    body returns and when it panics; a value [d] returns is dropped. *)
Fixpoint defer {A D : Type} (d : Prog D) (body : Prog A) : Prog A :=
  match body with
  | Ret a => bind d (fun _ => Ret a)
  | Panic v => bind d (fun _ => Panic v)
  | Call e k => Call e (fun x => defer d (k x))
  end.

Declare Scope prog_scope.
Delimit Scope prog_scope with prog.
Bind Scope prog_scope with Prog.

Notation "x <- p ;; k" := (bind p (fun x => k))
  (at level 61, p at next level, right associativity) : prog_scope.

(** [x, err := p; if err != nil { return nil, err }] *)
Notation "x <-? p ;; k" :=
  (bind p (fun res__ =>
     match res__ with inl x => k | inr err__ => Ret (inr err__) end))
  (at level 61, p at next level, right associativity) : prog_scope.

Local Open Scope prog_scope.

(** ** Running a program in a world *)

Definition Handler (W : Type) : Type := forall X : Type, Ext X -> W -> X * W.

Inductive Outcome (A : Type) : Type :=
| Returned (a : A)
| Panicked (v : error).

Arguments Returned {A} a.
Arguments Panicked {A} v.

Record Run (W A : Type) : Type := mkRun {
  outcome : Outcome A;
  trace : list Event;
  final : W
}.

Arguments mkRun {W A} outcome trace final.
Arguments outcome {W A} r.
Arguments trace {W A} r.
Arguments final {W A} r.

Fixpoint run {W A : Type} (h : Handler W) (p : Prog A) (w : W) : Run W A :=
  match p with
  | Ret a => mkRun (Returned a) [] w
  | Panic v => mkRun (Panicked v) [] w
  | Call e k =>
      let (x, w') := h _ e w in
      let r := run h (k x) w' in
      mkRun (outcome r) (Ev e x :: trace r) (final r)
  end.

(** [net.Dial] refuses an empty address ("missing address") whatever the
    network: the world a Go program runs in has this property. *)
Definition dial_rejects_empty {W : Type} (h : Handler W) : Prop :=
  forall network w, exists err w',
    h _ (net_Dial network "") w = (inr err, w').

(** The addresses of the TCP dials in a record, in order. *)
Definition dial_of (ev : Event) : list string :=
  match ev with
  | Ev (net_DialTimeout _ address _) _ => [address]
  | Ev _ _ => []
  end.

Definition dials (t : list Event) : list string := flat_map dial_of t.

(** The configurations handed to the secure-transport handshake, in order. *)
Definition handshake_of (ev : Event) : list ssh_ClientConfig :=
  match ev with
  | Ev (ssh_NewClientConn _ _ config) _ => [config]
  | Ev _ _ => []
  end.

Definition handshakes (t : list Event) : list ssh_ClientConfig :=
  flat_map handshake_of t.

(** The local files read, in order, each with what the read gave. *)
Definition read_of (ev : Event) : list (string * (bytes + error)) :=
  match ev with
  | @Ev X e x =>
      match e in Ext X return X -> list (string * (bytes + error)) with
      | ioutil_ReadFile filename => fun x => [(filename, x)]
      | _ => fun _ => []
      end x
  end.

Definition reads (t : list Event) : list (string * (bytes + error)) :=
  flat_map read_of t.

(** ** The package *)

Section Package.

Context {lib : Library}.

Definition connect (username host : string) (authMethod : ssh_AuthMethod)
  (timeout : Duration) : Prog (Client + error) :=
  username <-? (if String.eqb username "" then
                  r <- call user_Current ;;
                  match r with
                  | inr err =>
                      Ret (inr (fmt_Errorf_v
                        "Username wasn't specified and couldn't get current user: "
                        err))
                  | inl user => Ret (inl (Username user))
                  end
                else Ret (inl username)) ;;
  let config := {| User := username;
                   Auth := [authMethod];
                   HostKeyCallback := None;
                   ClientVersion := "";
                   HostKeyAlgorithms := [];
                   Timeout := 0 |} in
  let host := addPortToHost host in
  conn <-? call (net_DialTimeout "tcp" host timeout) ;;
  cc <-? call (ssh_NewClientConn conn host config) ;;
  let '(sshConn, chans, reqs) := cc in
  client <- call (ssh_NewClient sshConn chans reqs) ;;
  Ret (inl {| SSHClient := client |}).

(** Same as ConnectWithPassword but allows a custom timeout. *)
Definition ConnectWithPasswordTimeout (host username pass : string)
  (timeout : Duration) : Prog (Client + error) :=
  let authMethod := ssh_Password pass in
  connect username host authMethod timeout.

(** Connect with a password. *)
Definition ConnectWithPassword (host username pass : string)
  : Prog (Client + error) :=
  ConnectWithPasswordTimeout host username pass DefaultTimeout.

(** Connect with a private key with a custom timeout. *)
Definition ConnectWithKeyTimeout (host username privKey : string)
  (timeout : Duration) : Prog (Client + error) :=
  match ssh_ParsePrivateKey (list_byte_of_string privKey) with
  | inr err => Ret (inr err)
  | inl signer =>
      let authMethod := ssh_PublicKeys [signer] in
      connect username host authMethod timeout
  end.

(** Connect with a private key. *)
Definition ConnectWithKey (host username privKey : string)
  : Prog (Client + error) :=
  ConnectWithKeyTimeout host username privKey DefaultTimeout.

(** Connect with a private key file. If privKeyPath is an empty string it
    will attempt to use $HOME/.ssh/id_rsa. *)
Definition ConnectWithKeyFileTimeout (host username privKeyPath : string)
  (timeout : Duration) : Prog (Client + error) :=
  privKeyPath <- (if String.eqb privKeyPath "" then
                    r <- call user_Current ;;
                    match r with
                    | inl currentUser =>
                        Ret (filepath_Join [HomeDir currentUser; ".ssh"; "id_rsa"])
                    | inr _ => Ret privKeyPath
                    end
                  else Ret privKeyPath) ;;
  privKey <-? call (ioutil_ReadFile privKeyPath) ;;
  ConnectWithKeyTimeout host username (string_of_list_byte privKey) timeout.

Definition ConnectWithKeyFile (host username privKeyPath : string)
  : Prog (Client + error) :=
  ConnectWithKeyFileTimeout host username privKeyPath DefaultTimeout.

(** Connect with a ssh agent with a custom timeout. *)
Definition ConnectWithSshAgentTimeout (host username : string)
  (timeout : Duration) : Prog (Client + error) :=
  sock <- call (os_Getenv "SSH_AUTH_SOCK") ;;
  sshAgent <-? call (net_Dial "unix" sock) ;;
  let authMethod :=
    ssh_PublicKeysCallback (agent_Signers (agent_NewClient sshAgent)) in
  connect username host authMethod timeout.

(** Connect with a ssh agent. *)
Definition ConnectWithSshAgent (host username : string)
  : Prog (Client + error) :=
  ConnectWithSshAgentTimeout host username DefaultTimeout.

End Package.

(** The session's writers alias the two local buffers: each chunk that
    [Run] writes lands in the buffer its writer points to. *)
Fixpoint deliver (ws : list (Writer * bytes)) (stdout stderr : Buffer)
  : Buffer * Buffer :=
  match ws with
  | [] => (stdout, stderr)
  | (Stdout, p) :: ws' => deliver ws' (Buffer_Write stdout p) stderr
  | (Stderr, p) :: ws' => deliver ws' stdout (Buffer_Write stderr p)
  end.

(** All the bytes written to one writer, in order of arrival. *)
Definition written (to : Writer) (ws : list (Writer * bytes)) : bytes :=
  List.concat (map snd (filter (fun x => match fst x, to with
                                         | Stdout, Stdout | Stderr, Stderr => true
                                         | _, _ => false
                                         end) ws)).

(** Execute cmd on the remote host and return stderr and stdout as
    separate streams. The three results are Go's [([]byte, []byte, error)];
    a nil slice is the empty list. *)
Definition ExecWithOutputStreams (c : Client) (cmd : string)
  : Prog (bytes * bytes * option error) :=
  s <- call (ssh_Client_NewSession (SSHClient c)) ;;
  match s with
  | inr err => Ret ([], [], Some err)
  | inl session =>
      defer (call (ssh_Session_Close session))
        (let stdout := Buffer_zero in
         let stderr := Buffer_zero in
         r <- call (ssh_Session_Run session cmd) ;;
         let (stdout, stderr) := deliver (writes r) stdout stderr in
         let err := run_err r in
         Ret (Buffer_Bytes stdout, Buffer_Bytes stderr, err))
  end.

(** Return an sftp client. *)
Definition SFTPClient (c : Client) : Prog (sftp_Client + error) :=
  call (sftp_NewClient (SSHClient c)).

(** Read a remote file and return the contents. *)
Definition ReadAll (c : Client) (filepath : string)
  : Prog (bytes * option error) :=
  r <- SFTPClient c ;;
  match r with
  | inr err => Panic err
  | inl sftp =>
      defer (call (sftp_Client_Close sftp))
        (f <- call (sftp_Client_Open sftp filepath) ;;
         match f with
         | inr err => Ret ([], Some err)
         | inl file =>
             defer (call (sftp_File_Close file)) (call (ioutil_ReadAll file))
         end)
  end.

(** The entry points of the package, to speak of all of them at once. *)
Inductive Variant : Type :=
| WithPassword (pass : string)
| WithPasswordTimeout (pass : string) (timeout : Duration)
| WithKey (privKey : string)
| WithKeyTimeout (privKey : string) (timeout : Duration)
| WithKeyFile (privKeyPath : string)
| WithKeyFileTimeout (privKeyPath : string) (timeout : Duration)
| WithSshAgent
| WithSshAgentTimeout (timeout : Duration).

Definition entry {lib : Library} (v : Variant) (host username : string)
  : Prog (Client + error) :=
  match v with
  | WithPassword pass => ConnectWithPassword host username pass
  | WithPasswordTimeout pass t => ConnectWithPasswordTimeout host username pass t
  | WithKey k => ConnectWithKey host username k
  | WithKeyTimeout k t => ConnectWithKeyTimeout host username k t
  | WithKeyFile p => ConnectWithKeyFile host username p
  | WithKeyFileTimeout p t => ConnectWithKeyFileTimeout host username p t
  | WithSshAgent => ConnectWithSshAgent host username
  | WithSshAgentTimeout t => ConnectWithSshAgentTimeout host username t
  end.

(** The credential each entry point may attach. *)
Definition credential_of (v : Variant) (a : ssh_AuthMethod) : Prop :=
  match v with
  | WithPassword pass | WithPasswordTimeout pass _ => a = ssh_Password pass
  | WithKey _ | WithKeyTimeout _ _ | WithKeyFile _ | WithKeyFileTimeout _ _ =>
      exists signer, a = ssh_PublicKeys [signer]
  | WithSshAgent | WithSshAgentTimeout _ =>
      exists sshAgent,
        a = ssh_PublicKeysCallback (agent_Signers (agent_NewClient sshAgent))
  end.

(** ** Sample worlds

    A world that answers every call from a fixed table; the examples below
    run the package in such worlds. *)

Record Oracle : Type := {
  o_user : user_User + error;
  o_file : string -> bytes + error;
  o_env : string -> string;
  o_unix : string -> net_Conn + error;
  o_tcp : string -> net_Conn + error;
  o_handshake : ssh_Conn * ssh_NewChannels * ssh_Requests + error;
  o_session : ssh_Session + error;
  o_run : string -> RunResult;
  o_sftp : sftp_Client + error;
  o_open : string -> sftp_File + error;
  o_readall : bytes * option error
}.

Definition answer : Handler Oracle :=
  fun X e o =>
    (match e in Ext X return X with
     | user_Current => o_user o
     | ioutil_ReadFile filename => o_file o filename
     | os_Getenv key => o_env o key
     | net_Dial _ address =>
         if String.eqb address ""
         then inr (errors_New "dial unix: missing address")
         else o_unix o address
     | net_DialTimeout _ address _ => o_tcp o address
     | ssh_NewClientConn _ _ _ => o_handshake o
     | ssh_NewClient c _ _ => c
     | ssh_Client_NewSession _ => o_session o
     | ssh_Session_Run _ cmd => o_run o cmd
     | ssh_Session_Close _ => None
     | sftp_NewClient _ => o_sftp o
     | sftp_Client_Open _ path => o_open o path
     | sftp_Client_Close _ => None
     | sftp_File_Close _ => None
     | ioutil_ReadAll _ => o_readall o
     end, o).

Definition alice : user_User :=
  {| Uid := "1000"; Gid := "1000"; Username := "alice"; Name := "Alice";
     HomeDir := "/home/alice" |}.

Definition b (s : string) : bytes := list_byte_of_string s.

(** A machine on which everything works: the default key file holds a key,
    an agent listens, the host answers, "echo hi" prints "hi". *)
Definition fine : Oracle :=
  {| o_user := inl alice;
     o_file := fun f =>
       if String.eqb f "/home/alice/.ssh/id_rsa" then inl (b "KEY")
       else if String.eqb f "/tmp/notes.txt" then inl (b "hello")
       else inr (errors_New ("open " ++ f ++ ": no such file or directory"));
     o_env := fun k => if String.eqb k "SSH_AUTH_SOCK" then "/tmp/agent.sock" else "";
     o_unix := fun _ => inl 7%N;
     o_tcp := fun _ => inl 8%N;
     o_handshake := inl (9%N, 10%N, 11%N);
     o_session := inl 12%N;
     o_run := fun _ => {| writes := [(Stdout, b "hi"); (Stderr, b "warn"); (Stdout, b "!")];
                          run_err := Some (errors_New "Process exited with status 1") |};
     o_sftp := inl 13%N;
     o_open := fun _ => inr (errors_New "file does not exist");
     o_readall := (b "data", None) |}.

(** The same machine where the current user cannot be looked up. *)
Definition nobody : Oracle :=
  {| o_user := inr (errors_New "user: unknown userid 1000");
     o_file := o_file fine; o_env := o_env fine; o_unix := o_unix fine;
     o_tcp := o_tcp fine; o_handshake := o_handshake fine;
     o_session := o_session fine; o_run := o_run fine;
     o_sftp := o_sftp fine; o_open := o_open fine;
     o_readall := o_readall fine |}.

(** The same machine with no agent: the variable is unset. *)
Definition agentless : Oracle :=
  {| o_user := o_user fine;
     o_file := o_file fine; o_env := fun _ => ""; o_unix := o_unix fine;
     o_tcp := o_tcp fine; o_handshake := o_handshake fine;
     o_session := o_session fine; o_run := o_run fine;
     o_sftp := o_sftp fine; o_open := o_open fine;
     o_readall := o_readall fine |}.

(** The same machine whose server refuses the file-transfer subsystem. *)
Definition no_sftp : Oracle :=
  {| o_user := o_user fine;
     o_file := o_file fine; o_env := o_env fine; o_unix := o_unix fine;
     o_tcp := o_tcp fine; o_handshake := o_handshake fine;
     o_session := o_session fine; o_run := o_run fine;
     o_sftp := inr (errors_New "ssh: subsystem request failed");
     o_open := o_open fine;
     o_readall := o_readall fine |}.

(** Library functions for the sample worlds: only "KEY" parses; path
    elements that need no cleaning are joined by the separator. *)
Definition sample_lib : Library :=
  {| ssh_ParsePrivateKey := fun k =>
       if String.eqb (string_of_list_byte k) "KEY" then inl 1%N
       else inr (errors_New "ssh: no key found");
     filepath_Join := fun elem =>
       String.concat "/" (filter (fun e => negb (String.eqb e "")) elem) |}.

(** ** More of what a record of calls tells *)

(** What each call of a record contributes, collected in order. *)
Definition collect {R : Type} (f : forall X : Type, Ext X -> X -> list R)
  (t : list Event) : list R :=
  flat_map (fun ev => match ev with Ev e x => f _ e x end) t.

(** The TCP dials: network, address, timeout and what the dial gave. *)
Definition dial_calls
  : list Event -> list (string * string * Duration * (net_Conn + error)) :=
  collect (fun X e =>
    match e in Ext X
          return X -> list (string * string * Duration * (net_Conn + error))
    with
    | net_DialTimeout network address timeout =>
        fun x => [(network, address, timeout, x)]
    | _ => fun _ => []
    end).

(** The handshakes: connection, address, configuration and the answer. *)
Definition handshake_calls
  : list Event ->
    list (net_Conn * string * ssh_ClientConfig *
          (ssh_Conn * ssh_NewChannels * ssh_Requests + error)) :=
  collect (fun X e =>
    match e in Ext X
          return X -> list (net_Conn * string * ssh_ClientConfig *
                            (ssh_Conn * ssh_NewChannels * ssh_Requests + error))
    with
    | ssh_NewClientConn c addr config => fun x => [(c, addr, config, x)]
    | _ => fun _ => []
    end).

(** The clients that [ssh.NewClient] gave. *)
Definition new_clients : list Event -> list ssh_Client :=
  collect (fun X e =>
    match e in Ext X return X -> list ssh_Client with
    | ssh_NewClient _ _ _ => fun x => [x]
    | _ => fun _ => []
    end).

(** The answers of the current-user lookups. *)
Definition lookups : list Event -> list (user_User + error) :=
  collect (fun X e =>
    match e in Ext X return X -> list (user_User + error) with
    | user_Current => fun x => [x]
    | _ => fun _ => []
    end).

(** The environment variables read, each with its value. *)
Definition getenvs : list Event -> list (string * string) :=
  collect (fun X e =>
    match e in Ext X return X -> list (string * string) with
    | os_Getenv key => fun x => [(key, x)]
    | _ => fun _ => []
    end).

(** The local dials ([net.Dial]): network, address and what the dial gave. *)
Definition agent_dials
  : list Event -> list (string * string * (net_Conn + error)) :=
  collect (fun X e =>
    match e in Ext X return X -> list (string * string * (net_Conn + error))
    with
    | net_Dial network address => fun x => [(network, address, x)]
    | _ => fun _ => []
    end).

(** The timeout an entry point dials with. *)
Definition timeout_of (v : Variant) : Duration :=
  match v with
  | WithPasswordTimeout _ t | WithKeyTimeout _ t | WithKeyFileTimeout _ t
  | WithSshAgentTimeout t => t
  | WithPassword _ | WithKey _ | WithKeyFile _ | WithSshAgent => DefaultTimeout
  end.

(** The key-file entry points called without a path: the only ones that
    look the current user up for something else than the username. *)
Definition defaults_key_path (v : Variant) : bool :=
  match v with
  | WithKeyFile p | WithKeyFileTimeout p _ => String.eqb p ""
  | _ => false
  end.

(** Things a session operation opens and has to close. *)
Definition os_File : Type := ref.

Inductive Resource : Type :=
| a_session (s : ssh_Session)
| a_subclient (c : sftp_Client)
| a_remote_file (f : sftp_File)
| a_local_file (f : os_File).

Definition ext_opened {X : Type} (e : Ext X) : X -> list Resource :=
  match e in Ext X return X -> list Resource with
  | ssh_Client_NewSession _ =>
      fun x => match x with inl s => [a_session s] | inr _ => [] end
  | sftp_NewClient _ =>
      fun x => match x with inl c => [a_subclient c] | inr _ => [] end
  | sftp_Client_Open _ _ =>
      fun x => match x with inl f => [a_remote_file f] | inr _ => [] end
  | _ => fun _ => []
  end.

Definition ext_closed {X : Type} (e : Ext X) : list Resource :=
  match e with
  | ssh_Session_Close s => [a_session s]
  | sftp_Client_Close c => [a_subclient c]
  | sftp_File_Close f => [a_remote_file f]
  | _ => []
  end.

Definition opened : list Event -> list Resource :=
  collect (fun X e x => ext_opened e x).

Definition closed : list Event -> list Resource :=
  collect (fun X e _ => ext_closed e).

(** ** The remaining operations of a session

    [Exec], [Download], [Upload] and [Close] call collaborators that the
    functions above do not: the local file system, [io.Copy], the combined
    output of a session, the closing of the transport. The calls above are
    kept ([base]) and those are added. Programs over a signature of calls
    are as before. *)

(** What [io.Copy] reads from or writes to. *)
Inductive io_Stream : Type :=
| localFile (f : os_File)
| remoteFile (f : sftp_File).

Inductive Sys : Type -> Type :=
| base {X : Type} (e : Ext X) : Sys X
| ssh_Session_CombinedOutput (s : ssh_Session) (cmd : string)
  : Sys (bytes * option error)
| sftp_Client_Create (c : sftp_Client) (path : string) : Sys (sftp_File + error)
| os_Create (name : string) : Sys (os_File + error)
| os_Open (name : string) : Sys (os_File + error)
| os_File_Close (f : os_File) : Sys (option error)
| io_Copy (dst src : io_Stream) : Sys (Z * option error)
| ssh_Client_Close (c : ssh_Client) : Sys (option error).

Module Free.

Section Signature.

Variable E : Type -> Type.

Inductive Prog (A : Type) : Type :=
| Ret (a : A)
| Panic (v : error)
| Call {X : Type} (e : E X) (k : X -> Prog A).

Arguments Ret {A} a.
Arguments Panic {A} v.
Arguments Call {A X} e k.

Fixpoint bind {A B : Type} (p : Prog A) (f : A -> Prog B) : Prog B :=
  match p with
  | Ret a => f a
  | Panic v => Panic v
  | Call e k => Call e (fun x => bind (k x) f)
  end.

Definition call {X : Type} (e : E X) : Prog X := Call e Ret.

Fixpoint defer {A D : Type} (d : Prog D) (body : Prog A) : Prog A :=
  match body with
  | Ret a => bind d (fun _ => Ret a)
  | Panic v => bind d (fun _ => Panic v)
  | Call e k => Call e (fun x => defer d (k x))
  end.

Inductive Event : Type :=
| Ev {X : Type} (e : E X) (x : X).

Definition Handler (W : Type) : Type := forall X : Type, E X -> W -> X * W.

Record Run (W A : Type) : Type := mkRun {
  outcome : Outcome A;
  trace : list Event;
  final : W
}.

Arguments mkRun {W A} outcome trace final.
Arguments outcome {W A} r.
Arguments trace {W A} r.
Arguments final {W A} r.

Fixpoint run {W A : Type} (h : Handler W) (p : Prog A) (w : W) : Run W A :=
  match p with
  | Ret a => mkRun (Returned a) [] w
  | Panic v => mkRun (Panicked v) [] w
  | Call e k =>
      let (x, w') := h _ e w in
      let r := run h (k x) w' in
      mkRun (outcome r) (Ev e x :: trace r) (final r)
  end.

End Signature.

Arguments Ret {E A} a.
Arguments Panic {E A} v.
Arguments Call {E A X} e k.
Arguments bind {E A B} p f.
Arguments call {E X} e.
Arguments defer {E A D} d body.
Arguments Ev {E X} e x.
Arguments mkRun {E W A} outcome trace final.
Arguments outcome {E W A} r.
Arguments trace {E W A} r.
Arguments final {E W A} r.
Arguments run {E W A} h p w.

End Free.

Declare Scope free_scope.
Delimit Scope free_scope with free.

Notation "x <- p ;; k" := (Free.bind p (fun x => k))
  (at level 61, p at next level, right associativity) : free_scope.

(** Execute cmd on the remote host and return stderr and stdout combined *)
Definition Exec (c : Client) (cmd : string)
  : Free.Prog Sys (bytes * option error) :=
  (s <- Free.call (base (ssh_Client_NewSession (SSHClient c))) ;;
   match s with
   | inr err => Free.Ret ([], Some err)
   | inl session =>
       Free.defer (Free.call (base (ssh_Session_Close session)))
         (Free.call (ssh_Session_CombinedOutput session cmd))
   end)%free.

Definition Download (c : Client) (remote local : string)
  : Free.Prog Sys (option error) :=
  (r <- Free.call (base (sftp_NewClient (SSHClient c))) ;;
   match r with
   | inr err => Free.Ret (Some err)
   | inl client =>
       Free.defer (Free.call (base (sftp_Client_Close client)))
         (rf <- Free.call (base (sftp_Client_Open client remote)) ;;
          match rf with
          | inr err => Free.Ret (Some err)
          | inl remoteF =>
              Free.defer (Free.call (base (sftp_File_Close remoteF)))
                (lf <- Free.call (os_Create local) ;;
                 match lf with
                 | inr err => Free.Ret (Some err)
                 | inl localF =>
                     Free.defer (Free.call (os_File_Close localF))
                       (n <- Free.call
                               (io_Copy (localFile localF) (remoteFile remoteF)) ;;
                        let err := snd n in
                        Free.Ret err)
                 end)
          end)
   end)%free.

Definition Upload (c : Client) (local remote : string)
  : Free.Prog Sys (option error) :=
  (r <- Free.call (base (sftp_NewClient (SSHClient c))) ;;
   match r with
   | inr err => Free.Ret (Some err)
   | inl client =>
       Free.defer (Free.call (base (sftp_Client_Close client)))
         (lf <- Free.call (os_Open local) ;;
          match lf with
          | inr err => Free.Ret (Some err)
          | inl localF =>
              Free.defer (Free.call (os_File_Close localF))
                (rf <- Free.call (sftp_Client_Create client remote) ;;
                 match rf with
                 | inr err => Free.Ret (Some err)
                 | inl remoteF =>
                     n <- Free.call
                            (io_Copy (remoteFile remoteF) (localFile localF)) ;;
                     let err := snd n in
                     Free.Ret err
                 end)
          end)
   end)%free.

(** Close the underlying SSH connection *)
Definition Close (c : Client) : Free.Prog Sys (option error) :=
  Free.call (ssh_Client_Close (SSHClient c)).

(** What a record of these calls tells. *)
Definition gather {R : Type} (f : forall X : Type, Sys X -> X -> list R)
  (t : list (Free.Event Sys)) : list R :=
  flat_map (fun ev => match ev with Free.Ev e x => f _ e x end) t.

Definition sys_opened : list (Free.Event Sys) -> list Resource :=
  gather (fun X e =>
    match e in Sys X return X -> list Resource with
    | base e' => ext_opened e'
    | sftp_Client_Create _ _ =>
        fun x => match x with inl f => [a_remote_file f] | inr _ => [] end
    | os_Create _ | os_Open _ =>
        fun x => match x with inl f => [a_local_file f] | inr _ => [] end
    | _ => fun _ => []
    end).

Definition sys_closed : list (Free.Event Sys) -> list Resource :=
  gather (fun X e _ =>
    match e with
    | base e' => ext_closed e'
    | os_File_Close f => [a_local_file f]
    | _ => []
    end).

(** The local files created (and truncated) or opened, by name. *)
Definition local_creates : list (Free.Event Sys) -> list string :=
  gather (fun X e _ => match e with os_Create name => [name] | _ => [] end).

Definition local_opens : list (Free.Event Sys) -> list string :=
  gather (fun X e _ => match e with os_Open name => [name] | _ => [] end).

(** The remote files created, by path. *)
Definition remote_creates : list (Free.Event Sys) -> list string :=
  gather (fun X e _ =>
    match e with sftp_Client_Create _ path => [path] | _ => [] end).

(** The copies made: destination and source. *)
Definition copies : list (Free.Event Sys) -> list (io_Stream * io_Stream) :=
  gather (fun X e _ => match e with io_Copy dst src => [(dst, src)] | _ => [] end).

Definition is_remote_file (r : Resource) : bool :=
  match r with a_remote_file _ => true | _ => false end.

(** A sample machine for these operations: a world of the former kind
    and the answers to the further calls. *)
Record Machine : Type := {
  m_oracle : Oracle;
  m_combined : string -> bytes * option error;
  m_remote_create : string -> sftp_File + error;
  m_create : string -> os_File + error;
  m_open : string -> os_File + error;
  m_close : os_File -> option error;
  m_copy : Z * option error
}.

Definition serve : Free.Handler Sys Machine :=
  fun X e m =>
    match e in Sys X return X * Machine with
    | base e' =>
        let (x, o) := answer _ e' (m_oracle m) in
        (x, {| m_oracle := o; m_combined := m_combined m;
               m_remote_create := m_remote_create m; m_create := m_create m;
               m_open := m_open m; m_close := m_close m;
               m_copy := m_copy m |})
    | ssh_Session_CombinedOutput _ cmd => (m_combined m cmd, m)
    | sftp_Client_Create _ path => (m_remote_create m path, m)
    | os_Create name => (m_create m name, m)
    | os_Open name => (m_open m name, m)
    | os_File_Close f => (m_close m f, m)
    | io_Copy _ _ => (m_copy m, m)
    | ssh_Client_Close _ => (None, m)
    end.

(** The remote side has /etc/motd; the local disk is full, so a copy to it
    stops early and closing the file fails. *)
Definition workstation : Machine :=
  {| m_oracle :=
       {| o_user := o_user fine; o_file := o_file fine; o_env := o_env fine;
          o_unix := o_unix fine; o_tcp := o_tcp fine;
          o_handshake := o_handshake fine; o_session := o_session fine;
          o_run := o_run fine; o_sftp := o_sftp fine;
          o_open := fun p => if String.eqb p "/etc/motd" then inl 14%N
                             else inr (errors_New "file does not exist");
          o_readall := (b "welcome", Some (errors_New "connection lost")) |};
     m_combined := fun _ =>
       (b "hi", Some (errors_New "Process exited with status 1"));
     m_remote_create := fun _ => inl 15%N;
     m_create := fun name => if String.eqb name "/readonly/motd"
                             then inr (errors_New "open /readonly/motd: permission denied")
                             else inl 16%N;
     m_open := fun name => if String.eqb name "/home/alice/notes.txt"
                           then inl 17%N
                           else inr (errors_New ("open " ++ name ++ ": no such file or directory"));
     m_close := fun _ => Some (errors_New "close: no space left on device");
     m_copy := (3, Some (errors_New "write: no space left on device")) |}.

(** The same machine with no session to be had. *)
Definition busy : Oracle :=
  {| o_user := o_user fine; o_file := o_file fine; o_env := o_env fine;
     o_unix := o_unix fine; o_tcp := o_tcp fine;
     o_handshake := o_handshake fine;
     o_session := inr (errors_New "ssh: rejected: administratively prohibited");
     o_run := o_run fine; o_sftp := o_sftp fine; o_open := o_open fine;
     o_readall := o_readall fine |}.

(** A machine whose target host does not answer, and one whose target
    refuses the credential. *)
Definition unreachable : Oracle :=
  {| o_user := o_user fine; o_file := o_file fine; o_env := o_env fine;
     o_unix := o_unix fine;
     o_tcp := fun _ => inr (errors_New "dial tcp: i/o timeout");
     o_handshake := o_handshake fine; o_session := o_session fine;
     o_run := o_run fine; o_sftp := o_sftp fine; o_open := o_open fine;
     o_readall := o_readall fine |}.

Definition refused : Oracle :=
  {| o_user := o_user fine; o_file := o_file fine; o_env := o_env fine;
     o_unix := o_unix fine; o_tcp := o_tcp fine;
     o_handshake := inr (errors_New "ssh: unable to authenticate");
     o_session := o_session fine;
     o_run := o_run fine; o_sftp := o_sftp fine; o_open := o_open fine;
     o_readall := o_readall fine |}.

(** Neither bracket occurs in [s]. *)
Definition bracket_free (s : string) : Prop :=
  ~ occurs "[" s /\ ~ occurs "]" s.

(** ** Calls that went wrong before the handshake *)

(** The errors of the calls an entry point makes on its way to the
    handshake: user lookup, file read, local dial, dial of the host. *)
Definition early_failures : list Event -> list error :=
  collect (fun X e =>
    match e in Ext X return X -> list error with
    | user_Current =>
        fun x => match x with inr err => [err] | inl _ => [] end
    | ioutil_ReadFile _ =>
        fun x => match x with inr err => [err] | inl _ => [] end
    | net_Dial _ _ =>
        fun x => match x with inr err => [err] | inl _ => [] end
    | net_DialTimeout _ _ _ =>
        fun x => match x with inr err => [err] | inl _ => [] end
    | _ => fun _ => []
    end).

(** The key material of a key-based entry point parses: the key given,
    or whatever was read from a file. *)
Definition key_parses {lib : Library} (v : Variant) (t : list Event) : Prop :=
  match v with
  | WithKey k | WithKeyTimeout k _ =>
      exists signer, ssh_ParsePrivateKey (list_byte_of_string k) = inl signer
  | WithKeyFile _ | WithKeyFileTimeout _ _ =>
      forall filename contents,
        In (filename, inl contents) (reads t) ->
        exists signer, ssh_ParsePrivateKey contents = inl signer
  | _ => True
  end.

(** Where the credential [a] of an entry point comes from in a run: the
    password given, the parse of the key given, the parse of the one file
    read, the connection of the one dial of the agent socket. *)
Definition credential_from {lib : Library} (v : Variant) (t : list Event)
  (a : ssh_AuthMethod) : Prop :=
  match v with
  | WithPassword pass | WithPasswordTimeout pass _ => a = ssh_Password pass
  | WithKey k | WithKeyTimeout k _ =>
      exists signer,
        ssh_ParsePrivateKey (list_byte_of_string k) = inl signer /\
        a = ssh_PublicKeys [signer]
  | WithKeyFile _ | WithKeyFileTimeout _ _ =>
      exists filename contents signer,
        reads t = [(filename, inl contents)] /\
        ssh_ParsePrivateKey contents = inl signer /\
        a = ssh_PublicKeys [signer]
  | WithSshAgent | WithSshAgentTimeout _ =>
      exists sock sshAgent,
        getenvs t = [("SSH_AUTH_SOCK", sock)] /\
        agent_dials t = [("unix", sock, inl sshAgent)] /\
        a = ssh_PublicKeysCallback (agent_Signers (agent_NewClient sshAgent))
  end.

(** * Properties *)

(** ** Sanity checks of the address helpers *)

Example addPortToHost_name : addPortToHost "example.com" = "example.com:22".
Proof. reflexivity. Qed.

Example addPortToHost_port :
  addPortToHost "example.com:2222" = "example.com:2222".
Proof. reflexivity. Qed.

Example addPortToHost_v6_port : addPortToHost "[::1]:2222" = "[::1]:2222".
Proof. reflexivity. Qed.

Example addPortToHost_empty_port : addPortToHost "example.com:" = "example.com:".
Proof. reflexivity. Qed.

Example SplitHostPort_zone :
  net.SplitHostPort "[fe80::1%eth0]:80" = inl ("fe80::1%eth0", "80").
Proof. reflexivity. Qed.

Example SplitHostPort_stray_bracket :
  net.SplitHostPort "a]:22" = net.addrErr "a]:22" "unexpected ']' in address".
Proof. reflexivity. Qed.

(** ** Sanity checks of the entry points in the sample worlds *)

Example password_connect_runs :
  let r := run answer (ConnectWithPassword "example.com" "tester" "x") fine in
  outcome r = Returned (inl {| SSHClient := 9%N |}) /\
  dials (trace r) = ["example.com:22"] /\
  map User (handshakes (trace r)) = ["tester"].
Proof. repeat split; reflexivity. Qed.

Example keyfile_connect_runs :
  let r := run answer
             (ConnectWithKeyFile (lib := sample_lib) "[::1]:2222" "" "") fine in
  outcome r = Returned (inl {| SSHClient := 9%N |}) /\
  map fst (reads (trace r)) = ["/home/alice/.ssh/id_rsa"] /\
  dials (trace r) = ["[::1]:2222"] /\
  map Auth (handshakes (trace r)) = [[ssh_PublicKeys [1%N]]] /\
  map User (handshakes (trace r)) = ["alice"].
Proof. repeat split; reflexivity. Qed.

Example agent_connect_runs :
  let r := run answer (ConnectWithSshAgent "example.com" "alice") fine in
  outcome r = Returned (inl {| SSHClient := 9%N |}) /\
  map Auth (handshakes (trace r)) =
    [[ssh_PublicKeysCallback (agent_Signers (agent_NewClient 7%N))]].
Proof. repeat split; reflexivity. Qed.

(** ** Searching a string for a byte *)

Lemma IndexByteString_lower (s : string) (c : ascii) :
  -1 <= IndexByteString s c.
Proof.
  induction s as [|a s IH]; simpl; [lia|].
  destruct (Ascii.eqb a c); [lia|].
  destruct (IndexByteString s c <? 0) eqn:E; lia.
Qed.

Lemma IndexByteString_absent (s : string) (c : ascii) :
  ~ occurs c s -> IndexByteString s c = -1.
Proof.
  unfold occurs. induction s as [|a s IH]; simpl; intros H; [reflexivity|].
  destruct (Ascii.eqb a c) eqn:E.
  - apply Ascii.eqb_eq in E. exfalso. apply H. now left.
  - rewrite IH by (intros H'; apply H; now right). reflexivity.
Qed.

Lemma IndexByteString_present (s : string) (c : ascii) :
  occurs c s -> 0 <= IndexByteString s c.
Proof.
  unfold occurs. induction s as [|a s IH]; simpl; intros H; [contradiction|].
  destruct (Ascii.eqb a c) eqn:E; [lia|].
  destruct H as [H|H].
  - subst a. rewrite Ascii.eqb_refl in E. discriminate.
  - specialize (IH H). destruct (IndexByteString s c <? 0) eqn:L; lia.
Qed.

Lemma LastIndexByteString_absent (s : string) (c : ascii) :
  ~ occurs c s -> LastIndexByteString s c = -1.
Proof.
  unfold occurs. induction s as [|a s IH]; simpl; intros H; [reflexivity|].
  rewrite IH by (intros H'; apply H; now right). simpl.
  destruct (Ascii.eqb a c) eqn:E; [|reflexivity].
  apply Ascii.eqb_eq in E. exfalso. apply H. now left.
Qed.

Lemma SplitHostPort_needs_colon (host : string) :
  ~ occurs ":" host -> exists e, net.SplitHostPort host = inr e.
Proof.
  intros H. unfold net.SplitHostPort.
  rewrite (LastIndexByteString_absent _ _ H). simpl. eexists. reflexivity.
Qed.

Lemma JoinHostPort_plain (host port : string) :
  ~ occurs ":" host -> net.JoinHostPort host port = host ++ ":" ++ port.
Proof.
  intros H. unfold net.JoinHostPort.
  rewrite (IndexByteString_absent _ _ H). reflexivity.
Qed.

Lemma JoinHostPort_bracketed (host port : string) :
  occurs ":" host -> net.JoinHostPort host port = "[" ++ host ++ "]:" ++ port.
Proof.
  intros H. unfold net.JoinHostPort.
  apply IndexByteString_present in H. apply Z.leb_le in H. now rewrite H.
Qed.

(** ** Running programs *)

Lemma run_bind {W A B : Type} (h : Handler W) (p : Prog A) (f : A -> Prog B)
  (w : W) :
  run h (bind p f) w =
  match outcome (run h p w) with
  | Returned a =>
      let r := run h (f a) (final (run h p w)) in
      mkRun (outcome r) (trace (run h p w) ++ trace r) (final r)
  | Panicked v => mkRun (Panicked v) (trace (run h p w)) (final (run h p w))
  end.
Proof.
  revert w. induction p as [a|v|X e k IH]; intros w; simpl.
  - destruct (run h (f a) w); reflexivity.
  - reflexivity.
  - destruct (h X e w) as [x w']. rewrite IH. simpl.
    destruct (outcome (run h (k x) w')); reflexivity.
Qed.

Lemma handshakes_app (s t : list Event) :
  handshakes (s ++ t) = (handshakes s ++ handshakes t)%list.
Proof. apply flat_map_app. Qed.

Lemma dials_app (s t : list Event) :
  dials (s ++ t) = (dials s ++ dials t)%list.
Proof. apply flat_map_app. Qed.

(** One step of a run: name the answer of the next call. *)
Ltac answer_next h :=
  match goal with
  | |- context [h ?X ?e ?w] =>
      let x := fresh "x" in
      let w' := fresh "w" in
      let E := fresh "E" in
      destruct (h X e w) as [x w'] eqn:E; simpl
  end.

Ltac split_result :=
  match goal with
  | x : (_ + error)%type |- _ => destruct x as [?|?]; simpl
  | x : (_ * _)%type |- _ => destruct x; simpl
  end.

Ltac walk h := simpl; repeat (first [answer_next h | split_result]).

Section ConnectFacts.

Context {W : Type} (h : Handler W).

(** What one call of [connect] can hand to the handshake and where it can
    dial. *)
Lemma connect_shape (username host : string) (authMethod : ssh_AuthMethod)
  (timeout : Duration) (w : W) :
  let t := trace (run h (connect username host authMethod timeout) w) in
  (handshakes t = [] \/
   exists config, handshakes t = [config] /\
     Auth config = [authMethod] /\ HostKeyCallback config = None) /\
  (dials t = [] \/ dials t = [addPortToHost host]).
Proof.
  unfold connect. destruct (String.eqb username ""); walk h; eauto 8.
Qed.

End ConnectFacts.

Ltac branch :=
  match goal with
  | |- context [String.eqb ?a ?c] => destruct (String.eqb a c) eqn:?; simpl
  | |- context [ssh_ParsePrivateKey ?k] =>
      destruct (ssh_ParsePrivateKey k) as [?|?] eqn:?; simpl
  end.

Ltac explore h :=
  simpl; repeat (first [answer_next h | split_result | branch]).

Section EntryFacts.

Context {lib : Library} {W : Type} (h : Handler W).

(** Every entry point hands at most one configuration to the handshake;
    it carries the one credential of that entry point and no host-key
    callback; and the only address dialled is the normalized host. *)
Lemma entry_shape (v : Variant) (host username : string) (w : W) :
  let t := trace (run h (entry v host username) w) in
  (handshakes t = [] \/
   exists config a, handshakes t = [config] /\
     Auth config = [a] /\ credential_of v a /\
     HostKeyCallback config = None) /\
  (dials t = [] \/ dials t = [addPortToHost host]).
Proof.
  destruct v;
    unfold entry, ConnectWithPassword, ConnectWithKey, ConnectWithKeyFile,
      ConnectWithSshAgent, ConnectWithPasswordTimeout,
      ConnectWithKeyFileTimeout, ConnectWithKeyTimeout,
      ConnectWithSshAgentTimeout, connect;
    explore h;
    (split;
     [first [now left
            | right; do 2 eexists;
              split; [reflexivity|];
              split; [reflexivity|];
              split; [simpl; eauto | reflexivity]]
     | auto]).
Qed.

End EntryFacts.

(** ** Endpoint normalization *)

(** C1 (as amended). A host that [net.SplitHostPort] accepts is returned
    unchanged. A host it rejects gets the default port through
    [net.JoinHostPort]: a host without a colon becomes host:22, a rejected
    host with a colon becomes [host]:22. [connect] dials no other address
    than the normalized one. *)
Theorem addPortToHost_normalizes (host : string) :
  (forall hp, net.SplitHostPort host = inl hp -> addPortToHost host = host) /\
  (~ occurs ":" host -> addPortToHost host = host ++ ":22") /\
  (forall e, net.SplitHostPort host = inr e -> occurs ":" host ->
     addPortToHost host = "[" ++ host ++ "]:22") /\
  (forall (W : Type) (h : Handler W) (w : W)
          (username : string) (authMethod : ssh_AuthMethod) (timeout : Duration),
     let t := trace (run h (connect username host authMethod timeout) w) in
     dials t = [] \/ dials t = [addPortToHost host]).
Proof.
  repeat split.
  - intros hp E. unfold addPortToHost. now rewrite E.
  - intros H. unfold addPortToHost.
    destruct (SplitHostPort_needs_colon host H) as [e E]. rewrite E.
    now apply JoinHostPort_plain.
  - intros e E H. unfold addPortToHost. rewrite E.
    now apply JoinHostPort_bracketed.
  - intros W h w username authMethod timeout.
    apply (connect_shape h username host authMethod timeout w).
Qed.

Lemma addPortToHost_normalizes_witness :
  addPortToHost "example.com:2222" = "example.com:2222" /\
  addPortToHost "example.com" = "example.com:22" /\
  addPortToHost "fe80::1" = "[fe80::1]:22".
Proof.
  split; [|split].
  - apply (proj1 (addPortToHost_normalizes "example.com:2222")
             ("example.com", "2222")).
    reflexivity.
  - apply (proj1 (proj2 (addPortToHost_normalizes "example.com"))).
    unfold occurs. simpl. intros H.
    repeat (destruct H as [H|H]; [discriminate H|]). exact H.
  - apply (proj1 (proj2 (proj2 (addPortToHost_normalizes "fe80::1")))
             (errors_New "address fe80::1: too many colons in address")).
    + reflexivity.
    + unfold occurs. simpl. do 4 right. left. reflexivity.
Defined.

(** C1 as it was stated fails: the IPv6 literal ::1 carries no port
    ([net.SplitHostPort] rejects it), and the endpoint is not the host
    with ":22" appended. *)
Lemma addPortToHost_ipv6_literal :
  (exists e, net.SplitHostPort "::1" = inr e) /\
  addPortToHost "::1" = "[::1]:22" /\
  addPortToHost "::1" <> "::1" ++ ":22".
Proof.
  split; [|split].
  - eexists. reflexivity.
  - reflexivity.
  - discriminate.
Qed.

(** ** Default timeout *)

(** C5. Each entry point without a timeout is its timeout-taking
    counterpart at [DefaultTimeout], which is 30 seconds: the programs are
    the same, and so is every run of them. *)
Theorem default_timeout_variants (lib : Library) (host username : string) :
  DefaultTimeout = 30 * time_Second /\
  DefaultTimeout = 30000000000 /\
  (forall pass,
     ConnectWithPassword host username pass =
     ConnectWithPasswordTimeout host username pass (30 * time_Second)) /\
  (forall privKey,
     ConnectWithKey host username privKey =
     ConnectWithKeyTimeout host username privKey (30 * time_Second)) /\
  (forall privKeyPath,
     ConnectWithKeyFile host username privKeyPath =
     ConnectWithKeyFileTimeout host username privKeyPath (30 * time_Second)) /\
  ConnectWithSshAgent host username =
  ConnectWithSshAgentTimeout host username (30 * time_Second) /\
  (forall (W : Type) (h : Handler W) (w : W) (v : Variant),
     run h (entry v host username) w =
     run h (entry match v with
                  | WithPassword pass => WithPasswordTimeout pass (30 * time_Second)
                  | WithKey k => WithKeyTimeout k (30 * time_Second)
                  | WithKeyFile p => WithKeyFileTimeout p (30 * time_Second)
                  | WithSshAgent => WithSshAgentTimeout (30 * time_Second)
                  | timed => timed
                  end host username) w).
Proof.
  repeat split; try reflexivity.
  intros W h w v. destruct v; reflexivity.
Qed.

(** ** One credential, no host-key callback *)

(** C8. In every run of every entry point at most one handshake is
    attempted, and the configuration handed to it lists exactly one
    authentication method: the credential of that entry point. Whenever
    nothing fails on the way (user lookup, file read, dial of the agent
    socket, dial of the host) and the key material parses, the handshake
    is made, once, with exactly that one credential: the password given,
    the signer parsed from the key given or from the file read, the agent
    behind the socket dialled. *)
Theorem one_credential_per_attempt (lib : Library) (W : Type) (h : Handler W)
  (v : Variant) (host username : string) (w : W) :
  let t := trace (run h (entry v host username) w) in
  (List.length (handshakes t) <= 1)%nat /\
  (forall config, In config (handshakes t) ->
     List.length (Auth config) = 1%nat /\
     exists a, Auth config = [a] /\ credential_of v a) /\
  (early_failures t = [] -> key_parses v t ->
   exists config a,
     handshakes t = [config] /\ Auth config = [a] /\
     credential_of v a /\ credential_from v t a).
Proof.
  intros t. split; [|split].
  - destruct (entry_shape h v host username w)
      as [[E|(config & a & E & A & C & _)] _];
      fold t in E; rewrite E; simpl; lia.
  - destruct (entry_shape h v host username w)
      as [[E|(config & a & E & A & C & _)] _];
      fold t in E; rewrite E; simpl.
    + intros config [].
    + intros config' [<-|[]]. rewrite A. eauto.
  - subst t. destruct v;
      unfold entry, ConnectWithPassword, ConnectWithKey, ConnectWithKeyFile,
        ConnectWithSshAgent, ConnectWithPasswordTimeout,
        ConnectWithKeyFileTimeout, ConnectWithKeyTimeout,
        ConnectWithSshAgentTimeout, connect;
      explore h; intros F K; try discriminate F;
      try match goal with
          | K : exists _, inr _ = inl _ |- _ =>
              destruct K as [? K]; discriminate K
          end;
      try match goal with
          | K : forall _ _, _ -> exists _, _ |- _ =>
              destruct (K _ _ (or_introl eq_refl)) as [? ?];
              rewrite list_byte_of_string_of_list_byte in *; congruence
          end;
      rewrite ?list_byte_of_string_of_list_byte in *;
      do 2 eexists;
      (split; [reflexivity|]); (split; [reflexivity|]);
      (split; [simpl; eauto|]); simpl; eauto 8.
Qed.

Lemma one_credential_per_attempt_witness :
  map Auth (handshakes (trace (run answer
    (entry (lib := sample_lib) (WithPassword "x") "example.com:2222" "tester")
    fine))) = [[ssh_Password "x"]] /\
  map Auth (handshakes (trace (run answer
    (entry (lib := sample_lib) (WithKey "KEY") "example.com" "")
    fine))) = [[ssh_PublicKeys [1%N]]] /\
  map Auth (handshakes (trace (run answer
    (entry (lib := sample_lib) (WithKeyFileTimeout "" (5 * time_Second))
       "example.com" "alice") fine))) = [[ssh_PublicKeys [1%N]]] /\
  map Auth (handshakes (trace (run answer
    (entry (lib := sample_lib) WithSshAgent "example.com" "alice")
    fine))) =
    [[ssh_PublicKeysCallback (agent_Signers (agent_NewClient 7%N))]].
Proof.
  split; [|split; [|split]].
  - destruct (proj2 (proj2 (one_credential_per_attempt sample_lib Oracle answer
                (WithPassword "x") "example.com:2222" "tester" fine))
                eq_refl I) as (config & a & E & A & _ & F).
    rewrite E. simpl. rewrite A. simpl in F. now rewrite F.
  - destruct (proj2 (proj2 (one_credential_per_attempt sample_lib Oracle answer
                (WithKey "KEY") "example.com" "" fine))
                eq_refl (ex_intro _ 1%N eq_refl))
      as (config & a & E & A & _ & (signer & P & F)).
    rewrite E. simpl. rewrite A, F. vm_compute in P. inversion P. reflexivity.
  - destruct (proj2 (proj2 (one_credential_per_attempt sample_lib Oracle answer
                (WithKeyFileTimeout "" (5 * time_Second)) "example.com" "alice"
                fine)) eq_refl) as (config & a & E & A & _ & F).
    + intros filename contents [H|[]]. inversion H. exists 1%N. reflexivity.
    + destruct F as (filename & contents & signer & R & P & F).
      rewrite E. simpl. rewrite A, F. vm_compute in R. inversion R. subst.
      vm_compute in P. inversion P. reflexivity.
  - destruct (proj2 (proj2 (one_credential_per_attempt sample_lib Oracle answer
                WithSshAgent "example.com" "alice" fine))
                eq_refl I) as (config & a & E & A & _ & (sock & c & _ & D & F)).
    rewrite E. simpl. rewrite A, F. vm_compute in D. inversion D. reflexivity.
Defined.

(** C10. In every run of every entry point, a configuration handed to the
    handshake has its host-key callback unset. *)
Theorem no_host_key_callback (lib : Library) (W : Type) (h : Handler W)
  (v : Variant) (host username : string) (w : W) :
  Forall (fun config => HostKeyCallback config = None)
    (handshakes (trace (run h (entry v host username) w))).
Proof.
  destruct (entry_shape h v host username w) as [[E|(config & a & E & _ & _ & K)] _];
    rewrite E; auto.
Qed.

(** ** Failures on the way to the dial *)

(** C3. [connect] with an empty username asks the operating system for the
    current user first. If that fails, the call returns an error that wraps
    the failure, and nothing else is called: no dial. If it succeeds, the
    normalized host is dialled next, and once that dial succeeds the
    handshake is made with a configuration whose user is the name looked
    up; no handshake of the run names anybody else. *)
Theorem connect_empty_username (W : Type) (h : Handler W)
  (host : string) (authMethod : ssh_AuthMethod) (timeout : Duration) (w : W) :
  let r := run h (connect "" host authMethod timeout) w in
  (forall err w1, h _ user_Current w = (inr err, w1) ->
     r = mkRun
           (Returned (inr (fmt_Errorf_v
              "Username wasn't specified and couldn't get current user: " err)))
           [Ev user_Current (inr err)] w1 /\
     dials (trace r) = []) /\
  (forall u w1, h _ user_Current w = (inl u, w1) ->
     Forall (fun config => User config = Username u) (handshakes (trace r)) /\
     dials (trace r) = [addPortToHost host] /\
     (forall conn w2,
        h _ (net_DialTimeout "tcp" (addPortToHost host) timeout) w1 =
          (inl conn, w2) ->
        handshakes (trace r) =
          [{| User := Username u;
              Auth := [authMethod];
              HostKeyCallback := None;
              ClientVersion := "";
              HostKeyAlgorithms := [];
              Timeout := 0 |}]) /\
     (forall err w2,
        h _ (net_DialTimeout "tcp" (addPortToHost host) timeout) w1 =
          (inr err, w2) ->
        r = mkRun (Returned (inr err))
              [Ev user_Current (inl u);
               Ev (net_DialTimeout "tcp" (addPortToHost host) timeout)
                 (inr err)] w2)).
Proof.
  unfold connect. simpl. split.
  - intros err w1 E. rewrite E. simpl. split; reflexivity.
  - intros u w1 E. rewrite E. simpl. split; [|split; [|split]].
    + explore h; auto.
    + explore h; reflexivity.
    + intros conn w2 D. rewrite D. explore h; reflexivity.
    + intros err w2 D. rewrite D. reflexivity.
Qed.

Lemma connect_empty_username_witness :
  dials (trace (run answer
    (connect "" "example.com" (ssh_Password "x")
       DefaultTimeout) nobody)) = [] /\
  map User (handshakes (trace (run answer
    (connect "" "example.com" (ssh_Password "x") DefaultTimeout) fine))) =
    ["alice"] /\
  outcome (run answer
    (connect "" "example.com" (ssh_Password "x") DefaultTimeout) unreachable) =
    Returned (inr (errors_New "dial tcp: i/o timeout")).
Proof.
  split; [|split].
  - apply (proj1 (connect_empty_username Oracle answer
                    "example.com" (ssh_Password "x") DefaultTimeout nobody)
             (errors_New "user: unknown userid 1000") nobody).
    reflexivity.
  - rewrite (proj1 (proj2 (proj2 (proj2 (connect_empty_username Oracle answer
                    "example.com" (ssh_Password "x") DefaultTimeout fine)
             alice fine eq_refl))) 8%N fine eq_refl).
    reflexivity.
  - rewrite (proj2 (proj2 (proj2 (proj2 (connect_empty_username Oracle answer
                    "example.com" (ssh_Password "x") DefaultTimeout unreachable)
             alice unreachable eq_refl)))
             (errors_New "dial tcp: i/o timeout") unreachable eq_refl).
    reflexivity.
Defined.

(** C4. Key material that does not parse stops the key-based entry points
    before anything is dialled: [ConnectWithKeyTimeout] and [ConnectWithKey]
    return the parse error having called nothing at all, and the key-file
    entry points, once a file has been read, return the parse error of its
    contents with no dial in the record. *)
Theorem key_parse_error_before_dial (lib : Library) (W : Type) (h : Handler W)
  (host username : string) (timeout : Duration) (w : W) :
  (forall privKey err,
     ssh_ParsePrivateKey (list_byte_of_string privKey) = inr err ->
     run h (ConnectWithKeyTimeout host username privKey timeout) w =
       mkRun (Returned (inr err)) [] w /\
     run h (ConnectWithKey host username privKey) w =
       mkRun (Returned (inr err)) [] w) /\
  (forall privKeyPath filename privKey err,
     ssh_ParsePrivateKey privKey = inr err ->
     (let r := run h (ConnectWithKeyFileTimeout host username privKeyPath timeout) w in
      In (filename, inl privKey) (reads (trace r)) ->
      outcome r = Returned (inr err) /\ dials (trace r) = []) /\
     (let r := run h (ConnectWithKeyFile host username privKeyPath) w in
      In (filename, inl privKey) (reads (trace r)) ->
      outcome r = Returned (inr err) /\ dials (trace r) = [])).
Proof.
  split.
  - intros privKey err E. unfold ConnectWithKey, ConnectWithKeyTimeout.
    rewrite E. split; reflexivity.
  - intros privKeyPath filename privKey err E.
    unfold ConnectWithKeyFile, ConnectWithKeyFileTimeout, ConnectWithKeyTimeout,
      connect.
    split; explore h; intros H;
      repeat match goal with
             | H : _ \/ _ |- _ => destruct H as [H|H]
             | H : False |- _ => destruct H
             | H : (_, _) = (_, _) |- _ => inversion H; subst; clear H
             end;
      rewrite list_byte_of_string_of_list_byte in *;
      first [congruence | split; [congruence | reflexivity]].
Qed.

Lemma key_parse_error_before_dial_witness :
  run answer (ConnectWithKey (lib := sample_lib) "example.com" "alice" "hello")
    fine = mkRun (Returned (inr (errors_New "ssh: no key found"))) [] fine /\
  (let r := run answer
              (ConnectWithKeyFile (lib := sample_lib) "example.com" "alice"
                 "/tmp/notes.txt") fine in
   outcome r = Returned (inr (errors_New "ssh: no key found")) /\
   dials (trace r) = []).
Proof.
  split.
  - apply (proj1 (key_parse_error_before_dial sample_lib Oracle answer
                    "example.com" "alice" DefaultTimeout fine)).
    reflexivity.
  - apply (proj2 (proj2 (key_parse_error_before_dial sample_lib Oracle answer
                    "example.com" "alice" DefaultTimeout fine)
             "/tmp/notes.txt" "/tmp/notes.txt" (b "hello")
             (errors_New "ssh: no key found") eq_refl)).
    left. reflexivity.
Defined.

(** C6 (as amended). With a path given, that path is read. With the empty
    path, the file read is the current user's home directory joined with
    ".ssh" and "id_rsa" when the user lookup succeeds, and the empty path
    itself when the lookup fails. Whatever path is read, a failed read is
    returned as the error of the call and nothing is dialled. *)
Theorem keyfile_path_and_read_error (lib : Library) (W : Type) (h : Handler W)
  (host username : string) (timeout : Duration) (w : W) :
  (forall privKeyPath, privKeyPath <> "" ->
     map fst (reads (trace (run h
       (ConnectWithKeyFileTimeout host username privKeyPath timeout) w))) =
     [privKeyPath]) /\
  (forall u w0, h _ user_Current w = (inl u, w0) ->
     map fst (reads (trace (run h
       (ConnectWithKeyFileTimeout host username "" timeout) w))) =
     [filepath_Join [HomeDir u; ".ssh"; "id_rsa"]]) /\
  (forall e w0, h _ user_Current w = (inr e, w0) ->
     map fst (reads (trace (run h
       (ConnectWithKeyFileTimeout host username "" timeout) w))) = [""]) /\
  (forall privKeyPath filename err,
     let r := run h (ConnectWithKeyFileTimeout host username privKeyPath timeout) w in
     In (filename, inr err) (reads (trace r)) ->
     outcome r = Returned (inr err) /\ dials (trace r) = []) /\
  (forall privKeyPath,
     ConnectWithKeyFile host username privKeyPath =
     ConnectWithKeyFileTimeout host username privKeyPath DefaultTimeout).
Proof.
  unfold ConnectWithKeyFile, ConnectWithKeyFileTimeout, ConnectWithKeyTimeout,
    connect.
  split; [|split; [|split; [|split]]].
  - intros privKeyPath N. apply String.eqb_neq in N. rewrite N.
    explore h; reflexivity.
  - intros u w0 E. simpl. rewrite E. explore h; reflexivity.
  - intros e w0 E. simpl. rewrite E. explore h; reflexivity.
  - intros privKeyPath filename err. explore h; intros H;
      repeat match goal with
             | H : _ \/ _ |- _ => destruct H as [H|H]
             | H : False |- _ => destruct H
             | H : (_, _) = (_, _) |- _ => inversion H; subst; clear H
             end;
      split; reflexivity.
  - reflexivity.
Qed.

Lemma keyfile_path_and_read_error_witness :
  map fst (reads (trace (run answer
    (ConnectWithKeyFileTimeout (lib := sample_lib) "example.com" "alice" ""
       DefaultTimeout) fine))) = ["/home/alice/.ssh/id_rsa"] /\
  (let r := run answer
              (ConnectWithKeyFileTimeout (lib := sample_lib) "example.com"
                 "alice" "/nowhere" DefaultTimeout) fine in
   outcome r =
     Returned (inr (errors_New "open /nowhere: no such file or directory")) /\
   dials (trace r) = []).
Proof.
  split.
  - apply (proj1 (proj2 (keyfile_path_and_read_error sample_lib Oracle answer
                    "example.com" "alice" DefaultTimeout fine)) alice fine).
    reflexivity.
  - apply (proj1 (proj2 (proj2 (proj2 (keyfile_path_and_read_error sample_lib
                    Oracle answer "example.com" "alice" DefaultTimeout fine))))
             "/nowhere" "/nowhere").
    left. reflexivity.
Defined.

(** C6 as it was stated fails: where the current user cannot be looked up,
    a key-file connect with the empty path reads the empty path, which is
    no home directory joined with ".ssh" and "id_rsa". *)
Lemma keyfile_unknown_user_reads_empty_path :
  let r := run answer
             (ConnectWithKeyFileTimeout (lib := sample_lib) "example.com"
                "alice" "" DefaultTimeout) nobody in
  map fst (reads (trace r)) = [""] /\
  forall home,
    filepath_Join (Library := sample_lib) [home; ".ssh"; "id_rsa"] <> "".
Proof.
  split; [reflexivity|].
  intros [|a home]; simpl; discriminate.
Qed.

(** C7. When the agent socket cannot be reached, the agent-based entry
    points return the error of that local dial; the record holds the lookup
    of SSH_AUTH_SOCK and the local dial and nothing more, so the target host
    is never dialled. An unset variable reads as the empty address, which
    [net.Dial] refuses. *)
Theorem agent_unavailable_no_target_dial (W : Type)
  (h : Handler W) (host username : string) (timeout : Duration) (w : W)
  (sock : string) (w1 : W) :
  h _ (os_Getenv "SSH_AUTH_SOCK") w = (sock, w1) ->
  (sock = "" /\ dial_rejects_empty h) \/
  (exists err w2, h _ (net_Dial "unix" sock) w1 = (inr err, w2)) ->
  exists err w2,
    h _ (net_Dial "unix" sock) w1 = (inr err, w2) /\
    (let r := run h (ConnectWithSshAgentTimeout host username timeout) w in
     r = mkRun (Returned (inr err))
           [Ev (os_Getenv "SSH_AUTH_SOCK") sock;
            Ev (net_Dial "unix" sock) (inr err)] w2 /\
     dials (trace r) = []) /\
    (let r := run h (ConnectWithSshAgent host username) w in
     r = mkRun (Returned (inr err))
           [Ev (os_Getenv "SSH_AUTH_SOCK") sock;
            Ev (net_Dial "unix" sock) (inr err)] w2 /\
     dials (trace r) = []).
Proof.
  intros G D.
  assert (exists err w2, h _ (net_Dial "unix" sock) w1 = (inr err, w2))
    as (err & w2 & E).
  { destruct D as [[-> R]|D]; [apply R | exact D]. }
  exists err, w2. split; [exact E|].
  unfold ConnectWithSshAgent, ConnectWithSshAgentTimeout. simpl.
  rewrite G, E. simpl. repeat split; reflexivity.
Qed.

Lemma agent_unavailable_no_target_dial_witness :
  exists err,
    outcome (run answer
      (ConnectWithSshAgent "example.com" "alice")
      agentless) = Returned (inr err) /\
    dials (trace (run answer
      (ConnectWithSshAgent "example.com" "alice")
      agentless)) = [].
Proof.
  destruct (agent_unavailable_no_target_dial Oracle answer
              "example.com" "alice" DefaultTimeout agentless "" agentless
              eq_refl
              (or_introl (conj eq_refl
                 (fun network w =>
                    ex_intro _ (errors_New "dial unix: missing address")
                      (ex_intro _ w eq_refl)))))
    as (err & w2 & _ & _ & R & D).
  exists err. split; [now rewrite R | exact D].
Defined.

(** ** Session operations *)

Lemma deliver_written (ws : list (Writer * bytes)) (stdout stderr : Buffer) :
  deliver ws stdout stderr =
  ((stdout ++ written Stdout ws)%list, (stderr ++ written Stderr ws)%list).
Proof.
  revert stdout stderr.
  induction ws as [|[[|] p] ws IH]; intros stdout stderr; simpl.
  - unfold written. simpl. now rewrite !app_nil_r.
  - rewrite IH. unfold Buffer_Write, written. simpl.
    now rewrite <- app_assoc.
  - rewrite IH. unfold Buffer_Write, written. simpl.
    now rewrite <- app_assoc.
Qed.

(** C9. Once the command session has opened, [ExecWithOutputStreams]
    returns what was written to standard output, what was written to
    standard error, and the error of the run, whether that error is nil or
    not; the session is closed on the way out. *)
Theorem ExecWithOutputStreams_returns_buffers (W : Type) (h : Handler W)
  (c : Client) (cmd : string) (w w1 w2 w3 : W) (session : ssh_Session)
  (r : RunResult) (closed : option error) :
  h _ (ssh_Client_NewSession (SSHClient c)) w = (inl session, w1) ->
  h _ (ssh_Session_Run session cmd) w1 = (r, w2) ->
  h _ (ssh_Session_Close session) w2 = (closed, w3) ->
  run h (ExecWithOutputStreams c cmd) w =
  mkRun (Returned (written Stdout (writes r), written Stderr (writes r),
                   run_err r))
    [Ev (ssh_Client_NewSession (SSHClient c)) (inl session);
     Ev (ssh_Session_Run session cmd) r;
     Ev (ssh_Session_Close session) closed] w3.
Proof.
  intros N R C. unfold ExecWithOutputStreams. simpl. rewrite N. simpl.
  rewrite R. simpl. rewrite deliver_written. simpl. rewrite C. reflexivity.
Qed.

Lemma ExecWithOutputStreams_returns_buffers_witness :
  outcome (run answer
    (ExecWithOutputStreams {| SSHClient := 9%N |} "echo hi") fine) =
  Returned (b "hi!", b "warn",
            Some (errors_New "Process exited with status 1")).
Proof.
  rewrite (ExecWithOutputStreams_returns_buffers Oracle answer
             {| SSHClient := 9%N |} "echo hi" fine fine fine fine 12%N
             (o_run fine "echo hi") None eq_refl eq_refl eq_refl).
  reflexivity.
Defined.

(** C2. [ReadAll] panics with the error when the file-transfer sub-client
    cannot be built; when the sub-client is built and the remote path
    cannot be opened, the error is returned as a value (and the sub-client
    is closed). *)
Theorem ReadAll_failures (W : Type) (h : Handler W) (c : Client)
  (filepath : string) (w : W) :
  (forall err w1,
     h _ (sftp_NewClient (SSHClient c)) w = (inr err, w1) ->
     run h (ReadAll c filepath) w =
     mkRun (Panicked err) [Ev (sftp_NewClient (SSHClient c)) (inr err)] w1) /\
  (forall sftp w1 err w2 closed w3,
     h _ (sftp_NewClient (SSHClient c)) w = (inl sftp, w1) ->
     h _ (sftp_Client_Open sftp filepath) w1 = (inr err, w2) ->
     h _ (sftp_Client_Close sftp) w2 = (closed, w3) ->
     run h (ReadAll c filepath) w =
     mkRun (Returned ([], Some err))
       [Ev (sftp_NewClient (SSHClient c)) (inl sftp);
        Ev (sftp_Client_Open sftp filepath) (inr err);
        Ev (sftp_Client_Close sftp) closed] w3).
Proof.
  unfold ReadAll, SFTPClient. split.
  - intros err w1 E. simpl. rewrite E. reflexivity.
  - intros sftp w1 err w2 closed w3 E O C. simpl. rewrite E. simpl.
    rewrite O. simpl. rewrite C. reflexivity.
Qed.

Lemma ReadAll_failures_witness :
  outcome (run answer (ReadAll {| SSHClient := 9%N |} "/etc/motd") no_sftp) =
    Panicked (errors_New "ssh: subsystem request failed") /\
  outcome (run answer (ReadAll {| SSHClient := 9%N |} "/etc/motd") fine) =
    Returned ([], Some (errors_New "file does not exist")).
Proof.
  split.
  - rewrite (proj1 (ReadAll_failures Oracle answer {| SSHClient := 9%N |}
                      "/etc/motd" no_sftp)
               (errors_New "ssh: subsystem request failed") no_sftp eq_refl).
    reflexivity.
  - rewrite (proj2 (ReadAll_failures Oracle answer {| SSHClient := 9%N |}
                      "/etc/motd" fine)
               13%N fine (errors_New "file does not exist") fine None fine
               eq_refl eq_refl eq_refl).
    reflexivity.
Defined.

(** ** Further properties: endpoint normalization *)

Lemma len_nonneg (s : string) : 0 <= len s.
Proof. unfold len. lia. Qed.

Lemma len_String (a : ascii) (s : string) : len (String a s) = len s + 1.
Proof. unfold len. simpl. lia. Qed.

Lemma len_app (s t : string) : len (s ++ t) = len s + len t.
Proof.
  induction s as [|a s IH]; [reflexivity|].
  change (len (String a (s ++ t)) = len (String a s) + len t).
  rewrite !len_String, IH. lia.
Qed.

Lemma app_string_assoc (s t u : string) : (s ++ t) ++ u = s ++ t ++ u.
Proof. induction s as [|a s IH]; simpl; [reflexivity|now rewrite IH]. Qed.

Lemma occurs_app (c : ascii) (s t : string) :
  occurs c (s ++ t) <-> occurs c s \/ occurs c t.
Proof.
  unfold occurs. induction s as [|a s IH]; simpl.
  - tauto.
  - rewrite IH. tauto.
Qed.

Lemma IndexByteString_upper (s : string) (c : ascii) :
  IndexByteString s c < len s.
Proof.
  induction s as [|a s IH]; cbn -[len Z.add Z.ltb]; [unfold len; simpl; lia|].
  rewrite len_String. pose proof (len_nonneg s).
  destruct (Ascii.eqb a c); [lia|].
  destruct (Z.ltb_spec (IndexByteString s c) 0); lia.
Qed.

Lemma IndexByteString_occurs (s : string) (c : ascii) :
  0 <= IndexByteString s c -> occurs c s.
Proof.
  unfold occurs. induction s as [|a s IH]; simpl; [lia|].
  destruct (Ascii.eqb a c) eqn:E.
  - apply Ascii.eqb_eq in E. now left.
  - destruct (IndexByteString s c <? 0) eqn:L; [lia|].
    apply Z.ltb_ge in L. right. now apply IH.
Qed.

Lemma LastIndexByteString_occurs (s : string) (c : ascii) :
  0 <= LastIndexByteString s c -> occurs c s.
Proof.
  unfold occurs. induction s as [|a s IH]; simpl; [lia|].
  destruct (0 <=? LastIndexByteString s c) eqn:L.
  - apply Z.leb_le in L. right. now apply IH.
  - destruct (Ascii.eqb a c) eqn:E; [|lia].
    apply Ascii.eqb_eq in E. now left.
Qed.

(** The first [c] of [s ++ t], when [s] has none. *)
Lemma IndexByteString_skip (s t : string) (c : ascii) :
  ~ occurs c s -> 0 <= IndexByteString t c ->
  IndexByteString (s ++ t) c = len s + IndexByteString t c.
Proof.
  unfold occurs. induction s as [|a s IH]; cbn -[len Z.add Z.ltb]; intros N P.
  - unfold len. simpl. lia.
  - destruct (Ascii.eqb a c) eqn:E.
    + apply Ascii.eqb_eq in E. exfalso. apply N. now left.
    + rewrite IH by tauto. rewrite len_String. pose proof (len_nonneg s).
      destruct (Z.ltb_spec (len s + IndexByteString t c) 0); lia.
Qed.

(** The last [c] of [s ++ t], when [t] has one. *)
Lemma LastIndexByteString_skip (s t : string) (c : ascii) :
  0 <= LastIndexByteString t c ->
  LastIndexByteString (s ++ t) c = len s + LastIndexByteString t c.
Proof.
  intros P. induction s as [|a s IH]; cbn -[len Z.add Z.leb].
  - unfold len. simpl. lia.
  - rewrite IH, len_String. pose proof (len_nonneg s).
    destruct (Z.leb_spec 0 (len s + LastIndexByteString t c)); lia.
Qed.

Lemma substring_whole (s : string) : substring 0 (String.length s) s = s.
Proof. induction s as [|a s IH]; simpl; [reflexivity|now rewrite IH]. Qed.

Lemma substring_prefix (s t : string) :
  substring 0 (String.length s) (s ++ t) = s.
Proof.
  induction s as [|a s IH]; simpl.
  - now destruct t.
  - now rewrite IH.
Qed.

Lemma substring_skip (s t : string) (n : nat) :
  substring (String.length s) n (s ++ t) = substring 0 n t.
Proof. induction s as [|a s IH]; simpl; [reflexivity|exact IH]. Qed.

Lemma slice_prefix (s t : string) : slice (s ++ t) 0 (len s) = s.
Proof.
  unfold slice, len. rewrite Z.sub_0_r, Nat2Z.id. apply substring_prefix.
Qed.

Lemma slice_from_0 (s : string) : slice_from s 0 = s.
Proof.
  unfold slice_from, slice, len. rewrite Z.sub_0_r, Nat2Z.id.
  apply substring_whole.
Qed.

Lemma slice_from_skip (s t : string) : slice_from (s ++ t) (len s) = t.
Proof.
  unfold slice_from, slice. rewrite len_app.
  replace (len s + len t - len s) with (len t) by lia.
  unfold len. rewrite !Nat2Z.id, substring_skip. apply substring_whole.
Qed.

Lemma slice_middle (r s t : string) :
  slice (r ++ s ++ t) (len r) (len r + len s) = s.
Proof.
  unfold slice. replace (len r + len s - len r) with (len s) by lia.
  unfold len. rewrite !Nat2Z.id, substring_skip. apply substring_prefix.
Qed.

Lemma first_byte_absent (s : string) (c : ascii) :
  ~ occurs c s -> is_byte (byte_at s 0) c = false.
Proof.
  unfold occurs. destruct s as [|a s]; simpl; intros N; [reflexivity|].
  destruct (Ascii.eqb a c) eqn:E; [|reflexivity].
  apply Ascii.eqb_eq in E. exfalso. apply N. now left.
Qed.

Lemma occurs_literal (c : ascii) (s : string) :
  forallb (fun a => negb (Ascii.eqb a c)) (list_ascii_of_string s) = true ->
  ~ occurs c s.
Proof.
  unfold occurs. intros F H. rewrite forallb_forall in F.
  specialize (F c H). now rewrite Ascii.eqb_refl in F.
Qed.

Ltac len_norm :=
  cbn [append];
  repeat (rewrite len_app || rewrite len_String);
  change (len "") with 0.

Ltac not_in_literal :=
  unfold occurs; cbn [append list_ascii_of_string In];
  intros ?;
  repeat match goal with
         | H : _ \/ _ |- _ => destruct H as [H|H]
         | H : _ = _ |- _ => discriminate H
         end;
  unfold occurs in *; tauto.

(** A host without brackets and a port without colon or brackets, once
    joined, split into the two again. *)
Lemma SplitHostPort_JoinHostPort (host port : string) :
  bracket_free host -> bracket_free port -> ~ occurs ":" port ->
  net.SplitHostPort (net.JoinHostPort host port) = inl (host, port).
Proof.
  intros [HL HR] [PL PR] PC.
  pose proof (len_nonneg host) as LH. pose proof (len_nonneg port) as LP.
  assert (LC : LastIndexByteString (":" ++ port) ":" = 0).
  { cbn [append LastIndexByteString].
    rewrite (LastIndexByteString_absent _ _ PC). reflexivity. }
  unfold net.JoinHostPort.
  destruct (Z.leb_spec 0 (IndexByteString host ":")) as [C|C].
  - (* "[" ++ host ++ "]:" ++ port *)
    set (hp := "[" ++ host ++ "]:" ++ port).
    assert (F1 : hp = ("[" ++ host ++ "]") ++ (":" ++ port)).
    { unfold hp. cbn [append]. now rewrite app_string_assoc. }
    assert (F2 : hp = ("[" ++ host ++ "]:") ++ port).
    { unfold hp. cbn [append]. now rewrite app_string_assoc. }
    assert (F3 : hp = "[" ++ (host ++ "]:" ++ port)) by reflexivity.
    assert (F4 : hp = "[" ++ host ++ ("]:" ++ port)) by reflexivity.
    assert (L1 : len ("[" ++ host ++ "]") = len host + 2) by (len_norm; lia).
    assert (L2 : len ("[" ++ host ++ "]:") = len host + 3) by (len_norm; lia).
    assert (L : len hp = len host + 3 + len port) by (unfold hp; len_norm; lia).
    assert (I : LastIndexByteString hp ":" = len host + 2).
    { rewrite F1, LastIndexByteString_skip; rewrite LC; lia. }
    assert (E : IndexByteString hp "]" = len host + 1).
    { unfold hp. cbn [append IndexByteString Ascii.eqb Bool.eqb andb].
      rewrite IndexByteString_skip by (cbn; auto; lia).
      cbn [IndexByteString Ascii.eqb Bool.eqb andb].
      destruct (Z.ltb_spec (len host + 0) 0); lia. }
    assert (S1 : slice_from hp 1 = host ++ "]:" ++ port).
    { rewrite F3. apply (slice_from_skip "[" (host ++ "]:" ++ port)). }
    assert (S2 : slice_from hp (len host + 1 + 1) = ":" ++ port).
    { rewrite F1. replace (len host + 1 + 1) with (len ("[" ++ host ++ "]")) by lia.
      apply slice_from_skip. }
    assert (S3 : slice_from hp (len host + 2 + 1) = port).
    { rewrite F2. replace (len host + 2 + 1) with (len ("[" ++ host ++ "]:")) by lia.
      apply slice_from_skip. }
    assert (S4 : slice hp 1 (len host + 1) = host).
    { rewrite F4. replace (len host + 1) with (len "[" + len host)
        by (change (len "[") with 1; lia).
      apply (slice_middle "[" host ("]:" ++ port)). }
    assert (B : is_byte (byte_at hp 0) "[" = true) by reflexivity.
    unfold net.SplitHostPort, net.splitTail.
    rewrite I, E, B, L, S1, S2, S3, S4.
    rewrite (IndexByteString_absent (host ++ "]:" ++ port) "[")
      by (rewrite occurs_app; intros [H|H]; [auto | revert H; not_in_literal]).
    rewrite (IndexByteString_absent (":" ++ port) "]") by not_in_literal.
    destruct (Z.ltb_spec (len host + 2) 0); [lia|].
    destruct (Z.ltb_spec (len host + 1) 0); [lia|].
    destruct (Z.eqb_spec (len host + 1 + 1) (len host + 3 + len port)); [lia|].
    destruct (Z.eqb_spec (len host + 1 + 1) (len host + 2)); [|lia].
    reflexivity.
  - (* host ++ ":" ++ port *)
    assert (HC : ~ occurs ":" host).
    { intros H. apply IndexByteString_present in H. lia. }
    set (hp := host ++ ":" ++ port).
    assert (F2 : hp = (host ++ ":") ++ port).
    { unfold hp. now rewrite app_string_assoc. }
    assert (L2 : len (host ++ ":") = len host + 1) by (len_norm; lia).
    assert (I : LastIndexByteString hp ":" = len host).
    { unfold hp. rewrite LastIndexByteString_skip; rewrite LC; lia. }
    assert (N1 : ~ occurs "[" hp).
    { unfold hp. rewrite occurs_app. intros [H|H]; [auto | revert H; not_in_literal]. }
    assert (N2 : ~ occurs "]" hp).
    { unfold hp. rewrite occurs_app. intros [H|H]; [auto | revert H; not_in_literal]. }
    assert (S3 : slice_from hp (len host + 1) = port).
    { rewrite F2, <- L2. apply slice_from_skip. }
    assert (S0 : slice hp 0 (len host) = host) by apply slice_prefix.
    unfold net.SplitHostPort, net.splitTail.
    rewrite I, (first_byte_absent _ _ N1), slice_from_0, S3, S0.
    rewrite (IndexByteString_absent _ _ HC), (IndexByteString_absent _ _ N1),
      (IndexByteString_absent _ _ N2).
    destruct (Z.ltb_spec (len host) 0); [lia|]. reflexivity.
Qed.

(** X1. Where no port is found in a host without brackets, the endpoint
    that [addPortToHost] builds splits back into that very host and the
    port 22. *)
Theorem addPortToHost_adds_port_22 (host : string) (e : error) :
  bracket_free host ->
  net.SplitHostPort host = inr e ->
  net.SplitHostPort (addPortToHost host) = inl (host, "22").
Proof.
  intros B E. unfold addPortToHost. rewrite E.
  apply SplitHostPort_JoinHostPort; [exact B | split |]; not_in_literal.
Qed.

Lemma addPortToHost_adds_port_22_witness :
  net.SplitHostPort (addPortToHost "2001:db8::1") = inl ("2001:db8::1", "22").
Proof.
  apply (addPortToHost_adds_port_22 "2001:db8::1"
           (errors_New "address 2001:db8::1: too many colons in address")).
  - split; apply occurs_literal; reflexivity.
  - reflexivity.
Defined.

(** X2. Normalizing twice is normalizing once, for every host that carries
    a port already and for every host without brackets. *)
Theorem addPortToHost_idempotent (host : string) :
  (exists hp, net.SplitHostPort host = inl hp) \/ bracket_free host ->
  addPortToHost (addPortToHost host) = addPortToHost host.
Proof.
  intros H.
  destruct (net.SplitHostPort host) as [hp|e] eqn:E.
  - unfold addPortToHost at 2. rewrite E. unfold addPortToHost. now rewrite E.
  - destruct H as [[hp H]|B]; [discriminate H|].
    assert (A : addPortToHost host = net.JoinHostPort host "22")
      by (unfold addPortToHost; now rewrite E).
    rewrite A. unfold addPortToHost.
    rewrite SplitHostPort_JoinHostPort; [reflexivity | exact B | split |];
      not_in_literal.
Qed.

Lemma addPortToHost_idempotent_witness :
  addPortToHost (addPortToHost "[::1]:2222") = addPortToHost "[::1]:2222" /\
  addPortToHost (addPortToHost "example.com") = addPortToHost "example.com".
Proof.
  split.
  - apply addPortToHost_idempotent. left. eexists. reflexivity.
  - apply addPortToHost_idempotent. right.
    split; apply occurs_literal; reflexivity.
Defined.

(** The condition of X2 is needed: a stray bracket is wrapped again. *)
Example addPortToHost_stray_bracket_twice :
  addPortToHost "a]" = "a]:22" /\
  addPortToHost (addPortToHost "a]") = "[a]:22]:22".
Proof. split; reflexivity. Qed.

(** X3. The endpoint always has a colon in it, so it is never empty, and
    it is never shorter than the host given. *)
Theorem addPortToHost_has_colon (host : string) :
  occurs ":" (addPortToHost host) /\
  addPortToHost host <> "" /\
  len host <= len (addPortToHost host).
Proof.
  assert (C : occurs ":" (addPortToHost host) /\
              len host <= len (addPortToHost host)).
  { unfold addPortToHost.
    destruct (net.SplitHostPort host) as [hp|e] eqn:E.
    - split; [|lia]. apply LastIndexByteString_occurs.
      unfold net.SplitHostPort in E.
      destruct (Z.ltb_spec (LastIndexByteString host ":") 0); [discriminate E|lia].
    - pose proof (len_nonneg host). unfold net.JoinHostPort.
      destruct (0 <=? IndexByteString host ":").
      + split.
        * change ("[" ++ host ++ "]:" ++ "22") with ("[" ++ host ++ "]:22").
          rewrite !occurs_app. right. right. unfold occurs. simpl. tauto.
        * len_norm. lia.
      + split.
        * rewrite occurs_app. right. unfold occurs. simpl. tauto.
        * len_norm. lia. }
  destruct C as [C L]. repeat split; [exact C | | exact L].
  intros Z. rewrite Z in C. exact C.
Qed.

(** ** Further properties: the entry points *)

Ltac open_entries :=
  unfold entry, ConnectWithPassword, ConnectWithKey, ConnectWithKeyFile,
    ConnectWithSshAgent, ConnectWithPasswordTimeout,
    ConnectWithKeyFileTimeout, ConnectWithKeyTimeout,
    ConnectWithSshAgentTimeout, connect.

Ltac cases_of H :=
  repeat match goal with
         | H : _ \/ _ |- _ => destruct H as [H|H]
         | H : False |- _ => destruct H
         | H : In _ [] |- _ => destruct H
         | H : (_, _) = (_, _) |- _ => inversion H; subst; clear H
         | H : Returned _ = Returned _ |- _ => inversion H; subst; clear H
         | H : inl _ = inl _ |- _ => inversion H; subst; clear H
         | H : inr _ = inr _ |- _ => inversion H; subst; clear H
         | H : inl _ = inr _ |- _ => discriminate H
         | H : inr _ = inl _ |- _ => discriminate H
         end.

Section EntryRuns.

Context {lib : Library} {W : Type} (h : Handler W).
Variables (v : Variant) (host username : string) (w : W).

Let r := run h (entry v host username) w.

(** X4. An entry point dials at most once, over TCP, the normalized host,
    with the timeout it was given, or [DefaultTimeout] when it takes none. *)
Theorem entry_dial_parameters :
  (List.length (dial_calls (trace r)) <= 1)%nat /\
  Forall (fun d =>
            fst (fst (fst d)) = "tcp" /\
            snd (fst (fst d)) = addPortToHost host /\
            snd (fst d) = timeout_of v)
    (dial_calls (trace r)).
Proof.
  subst r. destruct v; open_entries; explore h;
    (split; [lia | repeat constructor]).
Qed.

(** X5. A failed dial and a failed handshake are returned as they are:
    after a failed dial there is no handshake, after a failed handshake
    [ssh.NewClient] is not called. *)
Theorem entry_network_failure_returned (err : error) :
  (forall network address timeout,
     In (network, address, timeout, inr err) (dial_calls (trace r)) ->
     outcome r = Returned (inr err) /\ handshake_calls (trace r) = []) /\
  (forall conn addr config,
     In (conn, addr, config, inr err) (handshake_calls (trace r)) ->
     outcome r = Returned (inr err) /\ new_clients (trace r) = []).
Proof.
  subst r. split; intros ? ? ?;
    destruct v; open_entries; explore h; intros H; cases_of H;
    split; reflexivity.
Qed.

(** X6. A handshake is only made on the connection that the dial of this
    call returned, and for the address that was dialled. *)
Theorem entry_handshake_on_dialled_connection
  (conn : net_Conn) (addr : string) (config : ssh_ClientConfig)
  (ans : ssh_Conn * ssh_NewChannels * ssh_Requests + error) :
  In (conn, addr, config, ans) (handshake_calls (trace r)) ->
  addr = addPortToHost host /\
  dial_calls (trace r) = [("tcp", addr, timeout_of v, inl conn)].
Proof.
  subst r. destruct v; open_entries; explore h; intros H; cases_of H;
    split; reflexivity.
Qed.

(** X7. A client is returned only after one successful dial and one
    successful handshake on it, and it wraps what [ssh.NewClient] made of
    that handshake. *)
Theorem entry_success (c : Client) :
  outcome r = Returned (inl c) ->
  exists conn config sshConn chans reqs,
    dial_calls (trace r) =
      [("tcp", addPortToHost host, timeout_of v, inl conn)] /\
    handshake_calls (trace r) =
      [(conn, addPortToHost host, config, inl (sshConn, chans, reqs))] /\
    new_clients (trace r) = [SSHClient c].
Proof.
  subst r. destruct v; open_entries; explore h; intros H; cases_of H;
    do 5 eexists; repeat split; reflexivity.
Qed.

(** X8. A username that is given is the one used, and when the key path is
    not left to default either, the current user is never looked up. *)
Theorem given_username_is_used :
  username <> "" ->
  Forall (fun config => User config = username) (handshakes (trace r)) /\
  (defaults_key_path v = false -> lookups (trace r) = []).
Proof.
  intros N. apply String.eqb_neq in N.
  subst r. destruct v; open_entries; simpl; rewrite ?N; explore h;
    (split; [repeat constructor | first [reflexivity | discriminate]]).
Qed.

(** X9. Only the key-file entry points read a local file, and they read
    exactly one; only the agent entry points read the environment, namely
    SSH_AUTH_SOCK, and dial a local socket, namely the one it names. *)
Theorem entry_local_access :
  (List.length (reads (trace r)) =
   match v with WithKeyFile _ | WithKeyFileTimeout _ _ => 1 | _ => 0 end)%nat /\
  match v with
  | WithSshAgent | WithSshAgentTimeout _ =>
      exists sock,
        getenvs (trace r) = [("SSH_AUTH_SOCK", sock)] /\
        map fst (agent_dials (trace r)) = [("unix", sock)]
  | _ => getenvs (trace r) = [] /\ agent_dials (trace r) = []
  end.
Proof.
  subst r. destruct v; open_entries; explore h;
    (split; [reflexivity | first [split; reflexivity
                                 | eexists; split; reflexivity]]).
Qed.

End EntryRuns.

Lemma entry_network_failure_returned_witness :
  outcome (run answer
    (entry (lib := sample_lib) (WithPassword "x") "example.com" "tester")
    unreachable) = Returned (inr (errors_New "dial tcp: i/o timeout")) /\
  outcome (run answer
    (entry (lib := sample_lib) (WithKey "KEY") "example.com" "tester")
    refused) = Returned (inr (errors_New "ssh: unable to authenticate")).
Proof.
  split.
  - apply (proj1 (entry_network_failure_returned (lib := sample_lib) answer
                    (WithPassword "x") "example.com" "tester" unreachable
                    (errors_New "dial tcp: i/o timeout"))
             "tcp" "example.com:22" DefaultTimeout).
    left. reflexivity.
  - apply (proj2 (entry_network_failure_returned (lib := sample_lib) answer
                    (WithKey "KEY") "example.com" "tester" refused
                    (errors_New "ssh: unable to authenticate"))
             8%N "example.com:22"
             {| User := "tester"; Auth := [ssh_PublicKeys [1%N]];
                HostKeyCallback := None; ClientVersion := "";
                HostKeyAlgorithms := []; Timeout := 0 |}).
    left. reflexivity.
Defined.

Lemma entry_handshake_on_dialled_connection_witness :
  dial_calls (trace (run answer
    (entry (lib := sample_lib) (WithPasswordTimeout "x" (5 * time_Second))
       "example.com" "tester") refused)) =
  [("tcp", "example.com:22", 5000000000, inl 8%N)].
Proof.
  apply (entry_handshake_on_dialled_connection (lib := sample_lib) answer
           (WithPasswordTimeout "x" (5 * time_Second)) "example.com" "tester"
           refused 8%N "example.com:22"
           {| User := "tester"; Auth := [ssh_Password "x"];
              HostKeyCallback := None; ClientVersion := "";
              HostKeyAlgorithms := []; Timeout := 0 |}
           (inr (errors_New "ssh: unable to authenticate"))).
  left. reflexivity.
Defined.

Lemma entry_success_witness :
  exists conn config sshConn chans reqs,
    dial_calls (trace (run answer
      (entry (lib := sample_lib) WithSshAgent "example.com" "") fine)) =
      [("tcp", "example.com:22", DefaultTimeout, inl conn)] /\
    handshake_calls (trace (run answer
      (entry (lib := sample_lib) WithSshAgent "example.com" "") fine)) =
      [(conn, "example.com:22", config, inl (sshConn, chans, reqs))] /\
    new_clients (trace (run answer
      (entry (lib := sample_lib) WithSshAgent "example.com" "") fine)) = [9%N].
Proof.
  apply (entry_success (lib := sample_lib) answer WithSshAgent "example.com" ""
           fine {| SSHClient := 9%N |}).
  reflexivity.
Defined.

Lemma given_username_is_used_witness :
  Forall (fun config => User config = "tester")
    (handshakes (trace (run answer
       (entry (lib := sample_lib) (WithKeyFile "/home/alice/.ssh/id_rsa")
          "example.com" "tester") nobody))) /\
  lookups (trace (run answer
    (entry (lib := sample_lib) (WithKeyFile "/home/alice/.ssh/id_rsa")
       "example.com" "tester") nobody)) = [].
Proof.
  destruct (given_username_is_used (lib := sample_lib) answer
              (WithKeyFile "/home/alice/.ssh/id_rsa") "example.com" "tester"
              nobody) as [U L].
  - discriminate.
  - split; [exact U | apply L; reflexivity].
Defined.

(** X10. The signer offered to the server is the parse of the key given,
    and for the key-file entry point the parse of the contents of the one
    file that was read. *)
Theorem offered_signer_is_the_parsed_key (lib : Library) (W : Type)
  (h : Handler W) (host username : string) (timeout : Duration) (w : W)
  (config : ssh_ClientConfig) :
  (forall privKey,
     In config (handshakes (trace (run h
       (ConnectWithKeyTimeout host username privKey timeout) w))) ->
     exists signer,
       ssh_ParsePrivateKey (list_byte_of_string privKey) = inl signer /\
       Auth config = [ssh_PublicKeys [signer]]) /\
  (forall privKeyPath,
     let r := run h
                (ConnectWithKeyFileTimeout host username privKeyPath timeout) w in
     In config (handshakes (trace r)) ->
     exists filename contents signer,
       reads (trace r) = [(filename, inl contents)] /\
       ssh_ParsePrivateKey contents = inl signer /\
       Auth config = [ssh_PublicKeys [signer]]).
Proof.
  split; intros ?; open_entries; explore h; intros H; cases_of H;
    rewrite ?list_byte_of_string_of_list_byte in *; subst;
    repeat eexists; first [reflexivity | eassumption].
Qed.

Lemma offered_signer_is_the_parsed_key_witness :
  exists filename contents signer,
    reads (trace (run answer
      (ConnectWithKeyFileTimeout (lib := sample_lib) "example.com" "alice" ""
         DefaultTimeout) fine)) = [(filename, inl contents)] /\
    ssh_ParsePrivateKey (Library := sample_lib) contents = inl signer /\
    signer = 1%N.
Proof.
  destruct (proj2 (offered_signer_is_the_parsed_key sample_lib Oracle answer
              "example.com" "alice" DefaultTimeout fine
              {| User := "alice"; Auth := [ssh_PublicKeys [1%N]];
                 HostKeyCallback := None; ClientVersion := "";
                 HostKeyAlgorithms := []; Timeout := 0 |}) ""
              (or_introl eq_refl))
    as (filename & contents & signer & R & P & A).
  exists filename, contents, signer. repeat split; [exact R | exact P |].
  simpl in A. congruence.
Defined.

(** X11. The agent credential offered to the server is bound to the very
    connection that the dial of the socket named by SSH_AUTH_SOCK gave. *)
Theorem agent_credential_is_the_dialled_socket (W : Type) (h : Handler W)
  (host username : string) (timeout : Duration) (w : W)
  (config : ssh_ClientConfig) :
  let r := run h (ConnectWithSshAgentTimeout host username timeout) w in
  In config (handshakes (trace r)) ->
  exists sock sshAgent,
    getenvs (trace r) = [("SSH_AUTH_SOCK", sock)] /\
    agent_dials (trace r) = [("unix", sock, inl sshAgent)] /\
    Auth config =
      [ssh_PublicKeysCallback (agent_Signers (agent_NewClient sshAgent))].
Proof.
  open_entries; explore h; intros H; cases_of H; subst;
    do 2 eexists; repeat split; reflexivity.
Qed.

Lemma agent_credential_is_the_dialled_socket_witness :
  exists sshAgent,
    agent_dials (trace (run answer
      (ConnectWithSshAgentTimeout "example.com" "alice" DefaultTimeout) fine)) =
    [("unix", "/tmp/agent.sock", inl sshAgent)].
Proof.
  destruct (agent_credential_is_the_dialled_socket Oracle answer
              "example.com" "alice" DefaultTimeout fine
              {| User := "alice";
                 Auth := [ssh_PublicKeysCallback
                            (agent_Signers (agent_NewClient 7%N))];
                 HostKeyCallback := None; ClientVersion := "";
                 HostKeyAlgorithms := []; Timeout := 0 |}
              (or_introl eq_refl))
    as (sock & sshAgent & G & D & _).
  exists sshAgent. rewrite D. repeat f_equal.
  simpl in G. congruence.
Defined.

(** ** Further properties: the operations of a session *)

(** X12. When no command session can be opened, [ExecWithOutputStreams]
    returns two nil buffers and the error; nothing is run and nothing is
    closed. *)
Theorem ExecWithOutputStreams_session_failure (W : Type) (h : Handler W)
  (c : Client) (cmd : string) (w w1 : W) (err : error) :
  h _ (ssh_Client_NewSession (SSHClient c)) w = (inr err, w1) ->
  run h (ExecWithOutputStreams c cmd) w =
  mkRun (Returned ([], [], Some err))
    [Ev (ssh_Client_NewSession (SSHClient c)) (inr err)] w1.
Proof.
  intros N. unfold ExecWithOutputStreams. simpl. rewrite N. reflexivity.
Qed.

Lemma ExecWithOutputStreams_session_failure_witness :
  outcome (run answer
    (ExecWithOutputStreams {| SSHClient := 9%N |} "echo hi") busy) =
  Returned ([], [],
            Some (errors_New "ssh: rejected: administratively prohibited")).
Proof.
  rewrite (ExecWithOutputStreams_session_failure Oracle answer
             {| SSHClient := 9%N |} "echo hi" busy busy
             (errors_New "ssh: rejected: administratively prohibited")
             eq_refl).
  reflexivity.
Defined.

(** X13. Once the remote file is open, [ReadAll] returns what
    [ioutil.ReadAll] gave, bytes and error together, so that a read cut
    short still hands its bytes over; the file is closed before the
    sub-client, and what the two closes answer is dropped. *)
Theorem ReadAll_returns_what_was_read (W : Type) (h : Handler W) (c : Client)
  (filepath : string) (w w1 w2 w3 w4 w5 : W) (sftp : sftp_Client)
  (file : sftp_File) (read : bytes * option error)
  (closed_file closed_client : option error) :
  h _ (sftp_NewClient (SSHClient c)) w = (inl sftp, w1) ->
  h _ (sftp_Client_Open sftp filepath) w1 = (inl file, w2) ->
  h _ (ioutil_ReadAll file) w2 = (read, w3) ->
  h _ (sftp_File_Close file) w3 = (closed_file, w4) ->
  h _ (sftp_Client_Close sftp) w4 = (closed_client, w5) ->
  run h (ReadAll c filepath) w =
  mkRun (Returned read)
    [Ev (sftp_NewClient (SSHClient c)) (inl sftp);
     Ev (sftp_Client_Open sftp filepath) (inl file);
     Ev (ioutil_ReadAll file) read;
     Ev (sftp_File_Close file) closed_file;
     Ev (sftp_Client_Close sftp) closed_client] w5.
Proof.
  intros N O R F C. unfold ReadAll, SFTPClient. simpl.
  rewrite N. simpl. rewrite O. simpl. rewrite R. simpl.
  rewrite F. simpl. rewrite C. reflexivity.
Qed.

Lemma ReadAll_returns_what_was_read_witness :
  outcome (run answer (ReadAll {| SSHClient := 9%N |} "/etc/motd")
             (m_oracle workstation)) =
  Returned (b "welcome", Some (errors_New "connection lost")).
Proof.
  rewrite (ReadAll_returns_what_was_read Oracle answer {| SSHClient := 9%N |}
             "/etc/motd" (m_oracle workstation) (m_oracle workstation)
             (m_oracle workstation) (m_oracle workstation)
             (m_oracle workstation) (m_oracle workstation)
             13%N 14%N (b "welcome", Some (errors_New "connection lost"))
             None None eq_refl eq_refl eq_refl eq_refl eq_refl).
  reflexivity.
Defined.

(** X14. In every run, [ExecWithOutputStreams] and [ReadAll] close what
    they opened, each thing once, the last opened first; and
    [ExecWithOutputStreams] always returns. *)
Theorem sessions_and_subclients_released (W : Type) (h : Handler W) (c : Client)
  (arg : string) (w : W) :
  (let t := trace (run h (ExecWithOutputStreams c arg) w) in
   closed t = rev (opened t)) /\
  (let t := trace (run h (ReadAll c arg) w) in
   closed t = rev (opened t)) /\
  (exists res, outcome (run h (ExecWithOutputStreams c arg) w) = Returned res).
Proof.
  unfold ExecWithOutputStreams, ReadAll, SFTPClient.
  repeat split; simpl;
    repeat (first [ answer_next h | split_result
                  | match goal with
                    | |- context [deliver ?ws ?o ?e] =>
                        destruct (deliver ws o e); simpl
                    end ]);
    first [reflexivity | eexists; reflexivity].
Qed.

Ltac replay :=
  intros; unfold bytes in *; simpl;
  repeat match goal with
         | H : _ = (_, _) |- _ => rewrite H; simpl
         end.

(** X15. [Exec] returns what [CombinedOutput] gave, bytes and error
    together, and closes the session afterwards; when no session can be
    opened it returns the error and calls nothing else. *)
Theorem Exec_returns_combined_output (W : Type) (h : Free.Handler Sys W)
  (c : Client) (cmd : string) (w : W) :
  (forall err w1,
     h _ (base (ssh_Client_NewSession (SSHClient c))) w = (inr err, w1) ->
     Free.run h (Exec c cmd) w =
     Free.mkRun (Returned ([], Some err))
       [Free.Ev (base (ssh_Client_NewSession (SSHClient c))) (inr err)] w1) /\
  (forall session w1 out w2 closed_session w3,
     h _ (base (ssh_Client_NewSession (SSHClient c))) w = (inl session, w1) ->
     h _ (ssh_Session_CombinedOutput session cmd) w1 = (out, w2) ->
     h _ (base (ssh_Session_Close session)) w2 = (closed_session, w3) ->
     Free.run h (Exec c cmd) w =
     Free.mkRun (Returned out)
       [Free.Ev (base (ssh_Client_NewSession (SSHClient c))) (inl session);
        Free.Ev (ssh_Session_CombinedOutput session cmd) out;
        Free.Ev (base (ssh_Session_Close session)) closed_session] w3).
Proof.
  unfold Exec. split.
  - intros err w1 N. simpl. rewrite N. reflexivity.
  - intros session w1 out w2 closed_session w3 N O C. unfold bytes in *.
    simpl. rewrite N. simpl. rewrite O. simpl. rewrite C. reflexivity.
Qed.

Lemma Exec_returns_combined_output_witness :
  Free.outcome (Free.run serve (Exec {| SSHClient := 9%N |} "echo hi")
                  workstation) =
  Returned (b "hi", Some (errors_New "Process exited with status 1")).
Proof.
  rewrite (proj2 (Exec_returns_combined_output Machine serve
                    {| SSHClient := 9%N |} "echo hi" workstation)
             12%N workstation
             (b "hi", Some (errors_New "Process exited with status 1"))
             workstation None workstation eq_refl eq_refl eq_refl).
  reflexivity.
Defined.

(** X16. [Download] touches the local file only once the remote file is
    open: when the sub-client cannot be built or the remote path cannot be
    opened, the error is returned and no local file is created or
    truncated. When the local file cannot be created, the error is
    returned, nothing is copied, and the remote file and the sub-client
    are closed. *)
Theorem Download_failures (W : Type) (h : Free.Handler Sys W) (c : Client)
  (remote local : string) (w : W) :
  let r := Free.run h (Download c remote local) w in
  (forall err w1,
     h _ (base (sftp_NewClient (SSHClient c))) w = (inr err, w1) ->
     Free.outcome r = Returned (Some err) /\
     local_creates (Free.trace r) = [] /\ sys_closed (Free.trace r) = []) /\
  (forall client w1 err w2,
     h _ (base (sftp_NewClient (SSHClient c))) w = (inl client, w1) ->
     h _ (base (sftp_Client_Open client remote)) w1 = (inr err, w2) ->
     Free.outcome r = Returned (Some err) /\
     local_creates (Free.trace r) = [] /\
     sys_closed (Free.trace r) = [a_subclient client]) /\
  (forall client w1 remoteF w2 err w3,
     h _ (base (sftp_NewClient (SSHClient c))) w = (inl client, w1) ->
     h _ (base (sftp_Client_Open client remote)) w1 = (inl remoteF, w2) ->
     h _ (os_Create local) w2 = (inr err, w3) ->
     Free.outcome r = Returned (Some err) /\
     local_creates (Free.trace r) = [local] /\
     copies (Free.trace r) = [] /\
     sys_closed (Free.trace r) = [a_remote_file remoteF; a_subclient client]).
Proof.
  unfold Download. simpl. repeat split; intros.
  all: repeat match goal with
              | H : _ = (_, _) |- _ => rewrite H; simpl
              end.
  all: walk h; reflexivity.
Qed.

Lemma Download_failures_witness :
  Free.outcome (Free.run serve
    (Download {| SSHClient := 9%N |} "/etc/passwd" "/tmp/passwd") workstation) =
    Returned (Some (errors_New "file does not exist")) /\
  local_creates (Free.trace (Free.run serve
    (Download {| SSHClient := 9%N |} "/etc/passwd" "/tmp/passwd") workstation))
    = [] /\
  sys_closed (Free.trace (Free.run serve
    (Download {| SSHClient := 9%N |} "/etc/motd" "/readonly/motd") workstation))
    = [a_remote_file 14%N; a_subclient 13%N].
Proof.
  destruct (proj1 (proj2 (Download_failures Machine serve {| SSHClient := 9%N |}
              "/etc/passwd" "/tmp/passwd" workstation))
              13%N workstation (errors_New "file does not exist") workstation
              eq_refl eq_refl) as (O & L & _).
  destruct (proj2 (proj2 (Download_failures Machine serve {| SSHClient := 9%N |}
              "/etc/motd" "/readonly/motd" workstation))
              13%N workstation 14%N workstation
              (errors_New "open /readonly/motd: permission denied") workstation
              eq_refl eq_refl eq_refl) as (_ & _ & _ & C).
  repeat split; assumption.
Defined.

(** X17. With both files open, [Download] copies from the remote file to
    the local one and returns the error of the copy, nil or not; it then
    closes the local file, the remote file and the sub-client, in that
    order, and drops what the closes answer: a failed close of the local
    file does not show in the result. *)
Theorem Download_copies_and_releases (W : Type) (h : Free.Handler Sys W)
  (c : Client) (remote local : string) (w w1 w2 w3 w4 w5 w6 w7 : W)
  (client : sftp_Client) (remoteF : sftp_File) (localF : os_File)
  (n : Z) (err closed_local closed_remote closed_client : option error) :
  h _ (base (sftp_NewClient (SSHClient c))) w = (inl client, w1) ->
  h _ (base (sftp_Client_Open client remote)) w1 = (inl remoteF, w2) ->
  h _ (os_Create local) w2 = (inl localF, w3) ->
  h _ (io_Copy (localFile localF) (remoteFile remoteF)) w3 = ((n, err), w4) ->
  h _ (os_File_Close localF) w4 = (closed_local, w5) ->
  h _ (base (sftp_File_Close remoteF)) w5 = (closed_remote, w6) ->
  h _ (base (sftp_Client_Close client)) w6 = (closed_client, w7) ->
  Free.run h (Download c remote local) w =
  Free.mkRun (Returned err)
    [Free.Ev (base (sftp_NewClient (SSHClient c))) (inl client);
     Free.Ev (base (sftp_Client_Open client remote)) (inl remoteF);
     Free.Ev (os_Create local) (inl localF);
     Free.Ev (io_Copy (localFile localF) (remoteFile remoteF)) (n, err);
     Free.Ev (os_File_Close localF) closed_local;
     Free.Ev (base (sftp_File_Close remoteF)) closed_remote;
     Free.Ev (base (sftp_Client_Close client)) closed_client] w7.
Proof.
  unfold Download. replay. reflexivity.
Qed.

Lemma Download_copies_and_releases_witness :
  Free.outcome (Free.run serve
    (Download {| SSHClient := 9%N |} "/etc/motd" "/tmp/motd") workstation) =
  Returned (Some (errors_New "write: no space left on device")).
Proof.
  rewrite (Download_copies_and_releases Machine serve {| SSHClient := 9%N |}
             "/etc/motd" "/tmp/motd" workstation workstation workstation
             workstation workstation workstation workstation workstation
             13%N 14%N 16%N 3
             (Some (errors_New "write: no space left on device"))
             (Some (errors_New "close: no space left on device")) None None
             eq_refl eq_refl eq_refl eq_refl eq_refl eq_refl eq_refl).
  reflexivity.
Defined.

(** X18. [Upload] creates the remote file only once the local file is
    open: when the sub-client cannot be built or the local file cannot be
    opened, nothing is created on the remote side. When the remote file
    cannot be created, nothing is copied, and the local file and the
    sub-client are closed. Each time the error is returned. *)
Theorem Upload_failures (W : Type) (h : Free.Handler Sys W) (c : Client)
  (local remote : string) (w : W) :
  let r := Free.run h (Upload c local remote) w in
  (forall err w1,
     h _ (base (sftp_NewClient (SSHClient c))) w = (inr err, w1) ->
     Free.outcome r = Returned (Some err) /\
     local_opens (Free.trace r) = [] /\ remote_creates (Free.trace r) = [] /\
     sys_closed (Free.trace r) = []) /\
  (forall client w1 err w2,
     h _ (base (sftp_NewClient (SSHClient c))) w = (inl client, w1) ->
     h _ (os_Open local) w1 = (inr err, w2) ->
     Free.outcome r = Returned (Some err) /\
     remote_creates (Free.trace r) = [] /\
     sys_closed (Free.trace r) = [a_subclient client]) /\
  (forall client w1 localF w2 err w3,
     h _ (base (sftp_NewClient (SSHClient c))) w = (inl client, w1) ->
     h _ (os_Open local) w1 = (inl localF, w2) ->
     h _ (sftp_Client_Create client remote) w2 = (inr err, w3) ->
     Free.outcome r = Returned (Some err) /\
     copies (Free.trace r) = [] /\
     sys_closed (Free.trace r) = [a_local_file localF; a_subclient client]).
Proof.
  unfold Upload. simpl. repeat split; intros.
  all: repeat match goal with
              | H : _ = (_, _) |- _ => rewrite H; simpl
              end.
  all: walk h; reflexivity.
Qed.

Lemma Upload_failures_witness :
  Free.outcome (Free.run serve
    (Upload {| SSHClient := 9%N |} "/home/alice/missing" "/srv/missing")
    workstation) =
    Returned (Some (errors_New
      "open /home/alice/missing: no such file or directory")) /\
  remote_creates (Free.trace (Free.run serve
    (Upload {| SSHClient := 9%N |} "/home/alice/missing" "/srv/missing")
    workstation)) = [].
Proof.
  destruct (proj1 (proj2 (Upload_failures Machine serve {| SSHClient := 9%N |}
              "/home/alice/missing" "/srv/missing" workstation))
              13%N workstation
              (errors_New "open /home/alice/missing: no such file or directory")
              workstation eq_refl eq_refl) as (O & R & _).
  split; assumption.
Defined.

(** X19. With both files open, [Upload] copies from the local file to the
    remote one and returns the error of the copy, nil or not; it then
    closes the local file and the sub-client, and makes no call that
    closes the remote file. *)
Theorem Upload_copies_and_releases (W : Type) (h : Free.Handler Sys W)
  (c : Client) (local remote : string) (w w1 w2 w3 w4 w5 w6 : W)
  (client : sftp_Client) (localF : os_File) (remoteF : sftp_File)
  (n : Z) (err closed_local closed_client : option error) :
  h _ (base (sftp_NewClient (SSHClient c))) w = (inl client, w1) ->
  h _ (os_Open local) w1 = (inl localF, w2) ->
  h _ (sftp_Client_Create client remote) w2 = (inl remoteF, w3) ->
  h _ (io_Copy (remoteFile remoteF) (localFile localF)) w3 = ((n, err), w4) ->
  h _ (os_File_Close localF) w4 = (closed_local, w5) ->
  h _ (base (sftp_Client_Close client)) w5 = (closed_client, w6) ->
  Free.run h (Upload c local remote) w =
  Free.mkRun (Returned err)
    [Free.Ev (base (sftp_NewClient (SSHClient c))) (inl client);
     Free.Ev (os_Open local) (inl localF);
     Free.Ev (sftp_Client_Create client remote) (inl remoteF);
     Free.Ev (io_Copy (remoteFile remoteF) (localFile localF)) (n, err);
     Free.Ev (os_File_Close localF) closed_local;
     Free.Ev (base (sftp_Client_Close client)) closed_client] w6.
Proof.
  unfold Upload. replay. reflexivity.
Qed.

Lemma Upload_copies_and_releases_witness :
  Free.outcome (Free.run serve
    (Upload {| SSHClient := 9%N |} "/home/alice/notes.txt" "/srv/notes.txt")
    workstation) =
  Returned (Some (errors_New "write: no space left on device")).
Proof.
  rewrite (Upload_copies_and_releases Machine serve {| SSHClient := 9%N |}
             "/home/alice/notes.txt" "/srv/notes.txt" workstation workstation
             workstation workstation workstation workstation workstation
             13%N 17%N 15%N 3
             (Some (errors_New "write: no space left on device"))
             (Some (errors_New "close: no space left on device")) None
             eq_refl eq_refl eq_refl eq_refl eq_refl eq_refl).
  reflexivity.
Defined.

Section AllRuns.

Context {W : Type} (h : Free.Handler Sys W).
Variables (c : Client) (w : W).

(** X20. In every run, [Exec] and [Download] close what they opened, each
    thing once, the last opened first. [Upload] does so for the sub-client
    and the local file, and in no run closes a remote file. *)
Theorem transfers_release_what_they_open (cmd remote local : string) :
  (let t := Free.trace (Free.run h (Exec c cmd) w) in
   sys_closed t = rev (sys_opened t)) /\
  (let t := Free.trace (Free.run h (Download c remote local) w) in
   sys_closed t = rev (sys_opened t)) /\
  (let t := Free.trace (Free.run h (Upload c local remote) w) in
   sys_closed t =
   rev (filter (fun o => negb (is_remote_file o)) (sys_opened t)) /\
   filter is_remote_file (sys_closed t) = []).
Proof.
  unfold Exec, Download, Upload. repeat split; walk h; reflexivity.
Qed.

(** X21. In every run, [Download] copies at most once, from a remote file
    to a local one, creates no other local file than the one named, opens
    no local file and creates nothing on the remote side; [Upload] copies
    at most once, from a local file to a remote one, opens no other local
    file than the one named, creates no local file and no other remote
    file than the one named. Neither panics. *)
Theorem transfer_directions (remote local : string) :
  (let r := Free.run h (Download c remote local) w in
   (copies (Free.trace r) = [] \/
    exists l f, copies (Free.trace r) = [(localFile l, remoteFile f)]) /\
   (local_creates (Free.trace r) = [] \/ local_creates (Free.trace r) = [local]) /\
   local_opens (Free.trace r) = [] /\
   remote_creates (Free.trace r) = [] /\
   exists res, Free.outcome r = Returned res) /\
  (let r := Free.run h (Upload c local remote) w in
   (copies (Free.trace r) = [] \/
    exists f l, copies (Free.trace r) = [(remoteFile f, localFile l)]) /\
   (local_opens (Free.trace r) = [] \/ local_opens (Free.trace r) = [local]) /\
   local_creates (Free.trace r) = [] /\
   (remote_creates (Free.trace r) = [] \/
    remote_creates (Free.trace r) = [remote]) /\
   exists res, Free.outcome r = Returned res).
Proof.
  unfold Download, Upload. split; walk h;
    repeat match goal with
           | |- _ /\ _ => split
           | |- exists _, Returned _ = Returned _ => eexists; reflexivity
           | |- _ = _ => reflexivity
           | |- [] = [] \/ _ => left; reflexivity
           | |- _ \/ _ => right; first [reflexivity | do 2 eexists; reflexivity]
           end.
Qed.

End AllRuns.

(** X22. No entry point panics: each run of each of them returns a client
    or an error. [ReadAll] panics in one case only, the failure to build
    the sub-client, and then nothing else has been called. *)
Theorem only_ReadAll_panics (lib : Library) (W : Type) (h : Handler W) (w : W) :
  (forall v host username,
     exists res, outcome (run h (entry v host username) w) = Returned res) /\
  (forall c filepath err,
     outcome (run h (ReadAll c filepath) w) = Panicked err ->
     trace (run h (ReadAll c filepath) w) =
     [Ev (sftp_NewClient (SSHClient c)) (inr err)]).
Proof.
  split.
  - intros v host username. destruct v; open_entries; explore h;
      eexists; reflexivity.
  - intros c filepath err. unfold ReadAll, SFTPClient. walk h; intros H;
      first [discriminate H | inversion H; reflexivity].
Qed.

Lemma only_ReadAll_panics_witness :
  trace (run answer (ReadAll {| SSHClient := 9%N |} "/etc/motd") no_sftp) =
  [Ev (sftp_NewClient 9%N) (inr (errors_New "ssh: subsystem request failed"))].
Proof.
  apply (proj2 (only_ReadAll_panics sample_lib Oracle answer no_sftp)
           {| SSHClient := 9%N |} "/etc/motd"
           (errors_New "ssh: subsystem request failed")).
  reflexivity.
Defined.
